(** * Report generator of the web application security scanner

    Shallow embedding of [report_generator.py] (class [VIPReportGenerator]):
    the SQLite scan store, [get_scan_data], the six renderers and
    [generate_all_formats], with the effects of the Python code made
    explicit in a small state-and-exception monad. *)

From Stdlib Require Import String Ascii List ZArith Bool Lia.
From Stdlib Require Import DecimalString DecimalPos.
Import ListNotations.
Open Scope string_scope.
Set Warnings "-register-all".

(* ================================================================== *)
(** ** Python text helpers *)

Definition dq : string := String "034"%char EmptyString.
Definition nl : string := String "010"%char EmptyString.

(** [str(n)] for a Python [int]. *)
Definition str_Z (z : Z) : string := NilZero.string_of_int (Z.to_int z).

(** [str(i)] for the counter produced by [enumerate]. *)
Definition str_nat (n : nat) : string := str_Z (Z.of_nat n).

(** [s * n] for a Python string. *)
Fixpoint str_repeat (n : nat) (s : string) : string :=
  match n with
  | O => ""
  | S k => s ++ str_repeat k s
  end.

Definition is_upper (c : ascii) : bool :=
  (65 <=? nat_of_ascii c)%nat && (nat_of_ascii c <=? 90)%nat.
Definition is_lower (c : ascii) : bool :=
  (97 <=? nat_of_ascii c)%nat && (nat_of_ascii c <=? 122)%nat.
Definition to_lower (c : ascii) : ascii :=
  if is_upper c then ascii_of_nat (nat_of_ascii c + 32) else c.
Definition to_upper (c : ascii) : ascii :=
  if is_lower c then ascii_of_nat (nat_of_ascii c - 32) else c.

(** [str.lower()] on the ASCII range; bytes outside it (letters beyond
    ASCII, which Python also lowers) are kept as they are. *)
Fixpoint py_lower (s : string) : string :=
  match s with
  | EmptyString => EmptyString
  | String c s' => String (to_lower c) (py_lower s')
  end.

(** [str.title()] on the ASCII range: a cased character is upper-cased
    when the previous character is not cased, lower-cased otherwise;
    bytes outside ASCII are kept as they are and count as not cased. *)
Fixpoint title_aux (prev_cased : bool) (s : string) : string :=
  match s with
  | EmptyString => EmptyString
  | String c s' =>
      if is_upper c || is_lower c
      then String (if prev_cased then to_lower c else to_upper c) (title_aux true s')
      else String c (title_aux false s')
  end.
Definition py_title (s : string) : string := title_aux false s.

(** [f"{x:12s}"]: left-justified in a field of width 12. *)
Definition ljust (w : nat) (s : string) : string :=
  s ++ str_repeat (w - String.length s) " ".

(** Truthiness of a nullable TEXT column value ([None] or a [str]). *)
Definition py_truthy_opt (o : option string) : bool :=
  match o with
  | None => false
  | Some s => negb (String.eqb s "")
  end.

(** [f"{o}"] for a nullable TEXT column value. *)
Definition fstr_opt (o : option string) : string :=
  match o with
  | None => "None"
  | Some s => s
  end.

(** [enumerate(xs, start)]. *)
Fixpoint enumerate {A} (start : nat) (l : list A) : list (nat * A) :=
  match l with
  | [] => []
  | x :: l' => (start, x) :: enumerate (S start) l'
  end.

(* ================================================================== *)
(** ** [datetime.now()] and [strftime] *)

Record datetime := mk_datetime {
  dt_year : Z; dt_month : Z; dt_day : Z;
  dt_hour : Z; dt_minute : Z; dt_second : Z }.

Definition zpad2 (z : Z) : string :=
  let s := str_Z z in str_repeat (2 - String.length s) "0" ++ s.

(** [strftime("%Y-%m-%d %H:%M:%S")] (glibc: [%Y] is not padded). *)
Definition strftime_report (t : datetime) : string :=
  str_Z (dt_year t) ++ "-" ++ zpad2 (dt_month t) ++ "-" ++ zpad2 (dt_day t)
  ++ " " ++ zpad2 (dt_hour t) ++ ":" ++ zpad2 (dt_minute t) ++ ":"
  ++ zpad2 (dt_second t).

(* ================================================================== *)
(** ** Python values: the result of [get_scan_data] and what [json.dump]
    serialises *)

Inductive pyval : Type :=
| PyNone
| PyInt (z : Z)
| PyStr (s : string)
| PyList (l : list pyval)
| PyDict (kvs : list (string * pyval)).

(** [bool(v)]. *)
Definition py_truthy (v : pyval) : bool :=
  match v with
  | PyNone => false
  | PyInt z => negb (Z.eqb z 0)
  | PyStr s => negb (String.eqb s "")
  | PyList l => match l with [] => false | _ => true end
  | PyDict kvs => match kvs with [] => false | _ => true end
  end.

Definition py_opt (o : option string) : pyval :=
  match o with None => PyNone | Some s => PyStr s end.

(** [d[k]] on a dict (first binding of the key). *)
Fixpoint dict_get (k : string) (kvs : list (string * pyval)) : option pyval :=
  match kvs with
  | [] => None
  | (k', v) :: r => if String.eqb k k' then Some v else dict_get k r
  end.

Definition py_getitem (v : pyval) (k : string) : option pyval :=
  match v with PyDict kvs => dict_get k kvs | _ => None end.

(* ================================================================== *)
(** ** The scan store (SQLite file [scan_results.db])

    Rows of the tables [scans] and [vulnerabilities] in their stored
    order, by column position as [SELECT *] returns them.  A table that
    does not exist is [None]: querying it raises
    [sqlite3.OperationalError]. *)

Record scan_row := mk_scan_row {
  sr_id : Z;                 (* scan[0] *)
  sr_target_url : string;    (* scan[1] *)
  sr_scan_type : string;     (* scan[2] *)
  sr_start_time : string;    (* scan[3] *)
  sr_end_time : string;      (* scan[4] *)
  sr_total_alerts : Z;       (* scan[5] *)
  sr_high_risk : Z;          (* scan[6] *)
  sr_medium_risk : Z;        (* scan[7] *)
  sr_low_risk : Z;           (* scan[8] *)
  sr_status : string }.      (* scan[9] *)

Record vuln_row := mk_vuln_row {
  vr_id : Z;                       (* v[0] *)
  vr_scan_id : Z;                  (* v[1] *)
  vr_name : string;                (* v[2] *)
  vr_severity : string;            (* v[3] *)
  vr_confidence : string;          (* v[4] *)
  vr_url : string;                 (* v[5] *)
  vr_description : string;         (* v[6] *)
  vr_solution : option string;     (* v[7] *)
  vr_reference : option string }.  (* v[8] *)

Record database := mk_database {
  db_scans : option (list scan_row);
  db_vulnerabilities : option (list vuln_row) }.

(** The dict built by [get_scan_data], field by field. *)
Record vuln := mk_vuln {
  v_id : Z; v_name : string; v_severity : string; v_confidence : string;
  v_url : string; v_description : string;
  v_solution : option string; v_reference : option string }.

Record scan_data := mk_scan_data {
  d_scan_id : Z; d_target_url : string; d_scan_type : string;
  d_start_time : string; d_end_time : string;
  d_total_alerts : Z; d_high_risk : Z; d_medium_risk : Z; d_low_risk : Z;
  d_status : string;
  d_vulnerabilities : list vuln }.

Definition vuln_of_row (v : vuln_row) : vuln :=
  mk_vuln (vr_id v) (vr_name v) (vr_severity v) (vr_confidence v) (vr_url v)
          (vr_description v) (vr_solution v) (vr_reference v).

Definition data_of_rows (scan : scan_row) (vulns : list vuln_row) : scan_data :=
  mk_scan_data (sr_id scan) (sr_target_url scan) (sr_scan_type scan)
    (sr_start_time scan) (sr_end_time scan) (sr_total_alerts scan)
    (sr_high_risk scan) (sr_medium_risk scan) (sr_low_risk scan)
    (sr_status scan) (map vuln_of_row vulns).

(** The same dicts as Python values. *)
Definition py_of_vuln (v : vuln) : pyval :=
  PyDict [("id", PyInt (v_id v)); ("name", PyStr (v_name v));
          ("severity", PyStr (v_severity v));
          ("confidence", PyStr (v_confidence v)); ("url", PyStr (v_url v));
          ("description", PyStr (v_description v));
          ("solution", py_opt (v_solution v));
          ("reference", py_opt (v_reference v))].

Definition py_of_scan_data (d : scan_data) : pyval :=
  PyDict [("scan_id", PyInt (d_scan_id d)); ("target_url", PyStr (d_target_url d));
          ("scan_type", PyStr (d_scan_type d)); ("start_time", PyStr (d_start_time d));
          ("end_time", PyStr (d_end_time d)); ("total_alerts", PyInt (d_total_alerts d));
          ("high_risk", PyInt (d_high_risk d)); ("medium_risk", PyInt (d_medium_risk d));
          ("low_risk", PyInt (d_low_risk d)); ("status", PyStr (d_status d));
          ("vulnerabilities", PyList (map py_of_vuln (d_vulnerabilities d)))].

(** What [get_scan_data] returns, as a Python value: [None] or the dict. *)
Definition py_of_result (r : option scan_data) : pyval :=
  match r with None => PyNone | Some d => py_of_scan_data d end.

(* ================================================================== *)
(** ** Documents handed to the output encoders *)

(** ReportLab flowables of the PDF story (styles by name; column widths
    and table styles are presentation only and left out). *)
Inductive flowable : Type :=
| Paragraph (text : string) (style : string)
| Spacer (w h : Z)
| Table (rows : list (list string))
| PageBreak.

(** python-docx calls, in order (alignment and table style left out). *)
Inductive docx_block : Type :=
| DocHeading (text : string) (level : Z)
| DocParagraph (text : string)
| DocTable (cells : list (list string))
| DocPageBreak.

(** openpyxl cell values and sheets: cells set by coordinate, then rows
    added with [ws.append] (fonts and fills left out). *)
Inductive xcell : Type :=
| XStr (s : string)
| XFormula (s : string)
| XError (s : string)
| XInt (z : Z)
| XNone.

Record sheet := mk_sheet {
  sh_title : string;
  sh_cells : list (string * xcell);
  sh_rows : list (list xcell) }.

(** Content of a file written by a renderer: text written through
    [open(..., 'w')], the value given to [json.dump], or the document
    given to [doc.build], [doc.save] or [wb.save]. *)
Inductive content : Type :=
| CText (s : string)
| CJson (v : pyval)
| CPdf (story : list flowable)
| CDocx (body : list docx_block)
| CXlsx (sheets : list sheet).

(* ================================================================== *)
(** ** The world and the effect monad *)

Inductive exn : Type :=
| OperationalError (msg : string)   (* sqlite3.OperationalError *)
| OSError (path : string)           (* open / save failing on a path *)
| ReportLabError (msg : string)     (* raised by ReportLab on a story *)
| ValueError (msg : string)         (* raised by lxml under python-docx *)
| IllegalCharacterError (msg : string). (* raised by openpyxl *)

Inductive conn_event : Type := ConnOpen | ConnClose.

Record world := mk_world {
  w_db : database;                       (* the store at [self.db_path] *)
  w_files : list (string * content);     (* files written, newest binding first *)
  w_unwritable : list string;            (* paths where writing raises *)
  w_stdout : list string;                (* lines printed, in order *)
  w_conns : list conn_event;             (* connection opens and closes *)
  w_clock : nat -> datetime;             (* reading number [n] of [datetime.now()] *)
  w_tick : nat }.                        (* readings taken so far *)

Inductive outcome (A : Type) : Type :=
| Ok (a : A)
| Raise (e : exn).
Arguments Ok {A} a.
Arguments Raise {A} e.

Definition M (A : Type) : Type := world -> outcome A * world.

Definition ret {A} (a : A) : M A := fun w => (Ok a, w).

Definition bind {A B} (m : M A) (k : A -> M B) : M B :=
  fun w => match m w with
           | (Ok a, w') => k a w'
           | (Raise e, w') => (Raise e, w')
           end.

Definition raise {A} (e : exn) : M A := fun w => (Raise e, w).

Notation "x <- m ;; k" := (bind m (fun x => k))
  (at level 61, m at next level, right associativity).
Notation "m ;;; k" := (bind m (fun _ => k))
  (at level 61, right associativity).

Definition set_stdout (w : world) (o : list string) : world :=
  mk_world (w_db w) (w_files w) (w_unwritable w) o (w_conns w) (w_clock w) (w_tick w).
Definition set_files (w : world) (f : list (string * content)) : world :=
  mk_world (w_db w) f (w_unwritable w) (w_stdout w) (w_conns w) (w_clock w) (w_tick w).
Definition set_conns (w : world) (c : list conn_event) : world :=
  mk_world (w_db w) (w_files w) (w_unwritable w) (w_stdout w) c (w_clock w) (w_tick w).
Definition set_tick (w : world) (n : nat) : world :=
  mk_world (w_db w) (w_files w) (w_unwritable w) (w_stdout w) (w_conns w) (w_clock w) n.

(** [print(s)]. *)
Definition print (s : string) : M unit :=
  fun w => (Ok tt, set_stdout w (w_stdout w ++ [s])).

(** [datetime.now()]. *)
Definition datetime_now : M datetime :=
  fun w => (Ok (w_clock w (w_tick w)), set_tick w (S (w_tick w))).

(** Writing a whole file at [path] (through [open(path, 'w')],
    [doc.build], [doc.save] or [wb.save]). *)
Definition write_file (path : string) (c : content) : M unit :=
  fun w => if existsb (String.eqb path) (w_unwritable w)
           then (Raise (OSError path), w)
           else (Ok tt, set_files w ((path, c) :: w_files w)).

(** Content of the file at [path], if any. *)
Fixpoint file_at (path : string) (fs : list (string * content)) : option content :=
  match fs with
  | [] => None
  | (p, c) :: r => if String.eqb path p then Some c else file_at path r
  end.

(* ================================================================== *)
(** ** SQLite access *)

(** [sqlite3.connect(self.db_path)]. *)
Definition sqlite_connect : M unit :=
  fun w => (Ok tt, set_conns w (w_conns w ++ [ConnOpen])).

(** [conn.close()]. *)
Definition conn_close : M unit :=
  fun w => (Ok tt, set_conns w (w_conns w ++ [ConnClose])).

(** [cursor.execute('SELECT * FROM scans WHERE id = ?', (scan_id,))]
    followed by [cursor.fetchone()]. *)
Definition select_scan (scan_id : Z) : M (option scan_row) :=
  fun w => match db_scans (w_db w) with
           | None => (Raise (OperationalError "no such table: scans"), w)
           | Some rows => (Ok (find (fun s => Z.eqb (sr_id s) scan_id) rows), w)
           end.

(** [cursor.execute('SELECT * FROM vulnerabilities WHERE scan_id = ?',
    (scan_id,))] followed by [cursor.fetchall()]. *)
Definition select_vulns (scan_id : Z) : M (list vuln_row) :=
  fun w => match db_vulnerabilities (w_db w) with
           | None => (Raise (OperationalError "no such table: vulnerabilities"), w)
           | Some rows => (Ok (filter (fun v => Z.eqb (vr_scan_id v) scan_id) rows), w)
           end.

(** [VIPReportGenerator.get_scan_data]: [None] is Python's [None], [Some d]
    the dict of [py_of_scan_data d]. *)
Definition get_scan_data (scan_id : Z) : M (option scan_data) :=
  sqlite_connect ;;;
  scan <- select_scan scan_id ;;
  match scan with
  | None => conn_close ;;; ret None
  | Some s =>
      vulns <- select_vulns scan_id ;;
      conn_close ;;;
      ret (Some (data_of_rows s vulns))
  end.

(* ================================================================== *)
(** ** Text of the HTML template

    The constant parts of the f-strings of [generate_html_report], in
    source order, byte for byte as UTF-8 (with [{{]/[}}] read as braces,
    as Python does); a double quote of the template is [dq]. *)

(* Parts of html = f'''...''' (lines 106-527). *)

Definition html_p_title : string :=
  "
<!DOCTYPE html>
<html lang=" ++ dq ++ "en" ++ dq ++ ">
<head>
    <meta charset=" ++ dq ++ "UTF-8" ++ dq ++ ">
    <meta name=" ++ dq ++ "viewport" ++ dq ++ " content=" ++ dq ++ "width=device-width, initial-scale=1.0" ++ dq ++ ">
    <title>Security Scan Report - ".

Definition html_p_style : string :=
  "</title>
    <style>
        * {
            margin: 0;
            padding: 0;
            box-sizing: border-box;
        }
        
        body {
            font-family: 'Segoe UI', Tahoma, Geneva, Verdana, sans-serif;
            background: linear-gradient(135deg, #667eea 0%, #764ba2 100%);
            padding: 40px 20px;
            min-height: 100vh;
        }
        
        .container {
            max-width: 1200px;
            margin: 0 auto;
            background: white;
            border-radius: 20px;
            box-shadow: 0 20px 60px rgba(0,0,0,0.3);
            overflow: hidden;
        }
        
        .header {
            background: linear-gradient(135deg, #667eea 0%, #764ba2 100%);
            color: white;
            padding: 60px 40px;
            text-align: center;
            position: relative;
            overflow: hidden;
        }
        
        .header::before {
            content: '';
            position: absolute;
            top: -50%;
            left: -50%;
            width: 200%;
            height: 200%;
            background: radial-gradient(circle, rgba(255,255,255,0.1) 0%, transparent 70%);
            animation: pulse 15s ease-in-out infinite;
        }
        
        @keyframes pulse {
            0%, 100% { transform: scale(1); }
            50% { transform: scale(1.1); }
        }
        
        .header h1 {
            font-size: 3em;
            margin-bottom: 10px;
            text-shadow: 2px 2px 4px rgba(0,0,0,0.3);
            position: relative;
            z-index: 1;
        }
        
        .header .subtitle {
            font-size: 1.2em;
            opacity: 0.9;
            position: relative;
            z-index: 1;
        }
        
        .summary {
            display: grid;
            grid-template-columns: repeat(auto-fit, minmax(250px, 1fr));
            gap: 30px;
            padding: 40px;
            background: #f8f9fa;
        }
        
        .stat-card {
            background: white;
            padding: 30px;
            border-radius: 15px;
            box-shadow: 0 10px 30px rgba(0,0,0,0.1);
            transform: translateY(0);
            transition: all 0.3s ease;
            position: relative;
            overflow: hidden;
        }
        
        .stat-card::before {
            content: '';
            position: absolute;
            top: 0;
            left: 0;
            width: 100%;
            height: 5px;
        }
        
        .stat-card.total::before { background: linear-gradient(90deg, #667eea, #764ba2); }
        .stat-card.high::before { background: linear-gradient(90deg, #f093fb, #f5576c); }
        .stat-card.medium::before { background: linear-gradient(90deg, #ffecd2, #fcb69f); }
        .stat-card.low::before { background: linear-gradient(90deg, #a8edea, #fed6e3); }
        
        .stat-card:hover {
            transform: translateY(-10px);
            box-shadow: 0 15px 40px rgba(0,0,0,0.2);
        }
        
        .stat-card h3 {
            font-size: 0.9em;
            color: #666;
            margin-bottom: 10px;
            text-transform: uppercase;
            letter-spacing: 1px;
        }
        
        .stat-card .number {
            font-size: 3em;
            font-weight: bold;
            background: linear-gradient(135deg, #667eea 0%, #764ba2 100%);
            -webkit-background-clip: text;
            -webkit-text-fill-color: transparent;
        }
        
        .stat-card.high .number {
            background: linear-gradient(135deg, #f093fb 0%, #f5576c 100%);
            -webkit-background-clip: text;
            -webkit-text-fill-color: transparent;
        }
        
        .stat-card.medium .number {
            background: linear-gradient(135deg, #ffecd2 0%, #fcb69f 100%);
            -webkit-background-clip: text;
            -webkit-text-fill-color: transparent;
        }
        
        .stat-card.low .number {
            background: linear-gradient(135deg, #a8edea 0%, #fed6e3 100%);
            -webkit-background-clip: text;
            -webkit-text-fill-color: transparent;
        }
        
        .info-section {
            padding: 40px;
            background: white;
        }
        
        .info-grid {
            display: grid;
            grid-template-columns: repeat(auto-fit, minmax(300px, 1fr));
            gap: 20px;
            margin-bottom: 40px;
        }
        
        .info-item {
            padding: 20px;
            background: #f8f9fa;
            border-radius: 10px;
            border-left: 4px solid #667eea;
        }
        
        .info-item label {
            font-weight: bold;
            color: #667eea;
            display: block;
            margin-bottom: 5px;
        }
        
        .info-item value {
            color: #333;
        }
        
        .vulnerabilities {
            padding: 40px;
            background: white;
        }
        
        .section-title {
            font-size: 2em;
            margin-bottom: 30px;
            color: #333;
            text-align: center;
            position: relative;
            padding-bottom: 15px;
        }
        
        .section-title::after {
            content: '';
            position: absolute;
            bottom: 0;
            left: 50%;
            transform: translateX(-50%);
            width: 100px;
            height: 4px;
            background: linear-gradient(90deg, #667eea, #764ba2);
            border-radius: 2px;
        }
        
        .vuln-card {
            background: white;
            border-radius: 15px;
            padding: 30px;
            margin-bottom: 30px;
            box-shadow: 0 5px 20px rgba(0,0,0,0.1);
            border-left: 6px solid #ddd;
            transition: all 0.3s ease;
        }
        
        .vuln-card:hover {
            box-shadow: 0 10px 30px rgba(0,0,0,0.15);
            transform: translateX(5px);
        }
        
        .vuln-card.high { border-left-color: #f5576c; }
        .vuln-card.medium { border-left-color: #fcb69f; }
        .vuln-card.low { border-left-color: #a8edea; }
        
        .vuln-header {
            display: flex;
            justify-content: space-between;
            align-items: center;
            margin-bottom: 20px;
        }
        
        .vuln-title {
            font-size: 1.5em;
            color: #333;
            font-weight: bold;
        }
        
        .severity-badge {
            padding: 8px 20px;
            border-radius: 25px;
            font-weight: bold;
            font-size: 0.9em;
            text-transform: uppercase;
            letter-spacing: 1px;
            box-shadow: 0 4px 10px rgba(0,0,0,0.2);
        }
        
        .severity-badge.high {
            background: linear-gradient(135deg, #f093fb 0%, #f5576c 100%);
            color: white;
        }
        
        .severity-badge.medium {
            background: linear-gradient(135deg, #ffecd2 0%, #fcb69f 100%);
            color: #8B4513;
        }
        
        .severity-badge.low {
            background: linear-gradient(135deg, #a8edea 0%, #fed6e3 100%);
            color: #333;
        }
        
        .vuln-content {
            color: #666;
            line-height: 1.8;
        }
        
        .vuln-content p {
            margin-bottom: 15px;
        }
        
        .vuln-content strong {
            color: #333;
            display: inline-block;
            margin-right: 10px;
        }
        
        .solution-box {
            background: linear-gradient(135deg, #d4fc79 0%, #96e6a1 100%);
            padding: 20px;
            border-radius: 10px;
            margin-top: 20px;
            border-left: 4px solid #4CAF50;
        }
        
        .solution-box strong {
            color: #2e7d32;
            font-size: 1.1em;
        }
        
        .footer {
            background: #2c3e50;
            color: white;
            padding: 40px;
            text-align: center;
        }
        
        .footer p {
            margin-bottom: 10px;
            opacity: 0.8;
        }
        
        .btn-3d {
            display: inline-block;
            padding: 15px 40px;
            margin: 10px;
            border-radius: 50px;
            font-weight: bold;
            text-decoration: none;
            color: white;
            box-shadow: 0 8px 15px rgba(0,0,0,0.3);
            transition: all 0.3s ease;
            position: relative;
            overflow: hidden;
        }
        
        .btn-3d::before {
            content: '';
            position: absolute;
            top: 0;
            left: -100%;
            width: 100%;
            height: 100%;
            background: rgba(255,255,255,0.2);
            transition: all 0.3s ease;
        }
        
        .btn-3d:hover::before {
            left: 100%;
        }
        
        .btn-3d:hover {
            transform: translateY(-5px);
            box-shadow: 0 15px 30px rgba(0,0,0,0.4);
        }
        
        .btn-3d:active {
            transform: translateY(-2px);
            box-shadow: 0 5px 10px rgba(0,0,0,0.3);
        }
        
        .btn-primary {
            background: linear-gradient(135deg, #667eea 0%, #764ba2 100%);
        }
        
        .btn-success {
            background: linear-gradient(135deg, #11998e 0%, #38ef7d 100%);
        }
        
        .btn-danger {
            background: linear-gradient(135deg, #f093fb 0%, #f5576c 100%);
        }
        
        .action-buttons {
            text-align: center;
            padding: 40px;
            background: #f8f9fa;
        }
        
        @media print {
            .action-buttons, .btn-3d { display: none; }
            body { background: white; }
            .container { box-shadow: none; }
        }
    </style>
</head>
<body>
    <div class=" ++ dq ++ "container" ++ dq ++ ">
        <!-- Header -->
        <div class=" ++ dq ++ "header" ++ dq ++ ">
            <h1>üõ°Ô∏è SECURITY SCAN REPORT</h1>
            <p class=" ++ dq ++ "subtitle" ++ dq ++ ">Comprehensive Vulnerability Assessment</p>
        </div>
        
        <!-- Summary Cards -->
        <div class=" ++ dq ++ "summary" ++ dq ++ ">
            <div class=" ++ dq ++ "stat-card total" ++ dq ++ ">
                <h3>Total Issues</h3>
                <div class=" ++ dq ++ "number" ++ dq ++ ">".

Definition html_p_high : string :=
  "</div>
            </div>
            <div class=" ++ dq ++ "stat-card high" ++ dq ++ ">
                <h3>High Risk</h3>
                <div class=" ++ dq ++ "number" ++ dq ++ ">".

Definition html_p_medium : string :=
  "</div>
            </div>
            <div class=" ++ dq ++ "stat-card medium" ++ dq ++ ">
                <h3>Medium Risk</h3>
                <div class=" ++ dq ++ "number" ++ dq ++ ">".

Definition html_p_low : string :=
  "</div>
            </div>
            <div class=" ++ dq ++ "stat-card low" ++ dq ++ ">
                <h3>Low Risk</h3>
                <div class=" ++ dq ++ "number" ++ dq ++ ">".

Definition html_p_info : string :=
  "</div>
            </div>
        </div>
        
        <!-- Scan Information -->
        <div class=" ++ dq ++ "info-section" ++ dq ++ ">
            <h2 class=" ++ dq ++ "section-title" ++ dq ++ ">Scan Information</h2>
            <div class=" ++ dq ++ "info-grid" ++ dq ++ ">
                <div class=" ++ dq ++ "info-item" ++ dq ++ ">
                    <label>Target URL:</label>
                    <value>".

Definition html_p_type : string :=
  "</value>
                </div>
                <div class=" ++ dq ++ "info-item" ++ dq ++ ">
                    <label>Scan Type:</label>
                    <value>".

Definition html_p_start : string :=
  "</value>
                </div>
                <div class=" ++ dq ++ "info-item" ++ dq ++ ">
                    <label>Start Time:</label>
                    <value>".

Definition html_p_end : string :=
  "</value>
                </div>
                <div class=" ++ dq ++ "info-item" ++ dq ++ ">
                    <label>End Time:</label>
                    <value>".

Definition html_p_status : string :=
  "</value>
                </div>
                <div class=" ++ dq ++ "info-item" ++ dq ++ ">
                    <label>Status:</label>
                    <value>".

Definition html_p_generated : string :=
  "</value>
                </div>
                <div class=" ++ dq ++ "info-item" ++ dq ++ ">
                    <label>Report Generated:</label>
                    <value>".

Definition html_p_findings : string :=
  "</value>
                </div>
            </div>
        </div>
        
        <!-- Vulnerabilities -->
        <div class=" ++ dq ++ "vulnerabilities" ++ dq ++ ">
            <h2 class=" ++ dq ++ "section-title" ++ dq ++ ">Detailed Findings</h2>
".

(* Parts of the finding card (lines 532-542). *)

Definition html_card_0 : string :=
  "
            <div class=" ++ dq ++ "vuln-card ".

Definition html_card_1 : string :=
  "" ++ dq ++ ">
                <div class=" ++ dq ++ "vuln-header" ++ dq ++ ">
                    <div class=" ++ dq ++ "vuln-title" ++ dq ++ ">".

Definition html_card_2 : string :=
  ". ".

Definition html_card_3 : string :=
  "</div>
                    <div class=" ++ dq ++ "severity-badge ".

Definition html_card_4 : string :=
  "" ++ dq ++ ">".

Definition html_card_5 : string :=
  "</div>
                </div>
                <div class=" ++ dq ++ "vuln-content" ++ dq ++ ">
                    <p><strong>üîç Description:</strong> ".

Definition html_card_6 : string :=
  "</p>
                    <p><strong>üìç Location:</strong> ".

Definition html_card_7 : string :=
  "</p>
                    <p><strong>üéØ Confidence:</strong> ".

Definition html_card_8 : string :=
  "</p>
".

(* Parts of the solution box (lines 545-550). *)

Definition html_sol_0 : string :=
  "
                    <div class=" ++ dq ++ "solution-box" ++ dq ++ ">
                        <p><strong>üí° Recommended Solution:</strong></p>
                        <p>".

Definition html_sol_1 : string :=
  "</p>
                    </div>
".

(* Parts of the reference line (lines 553-555). *)

Definition html_ref_0 : string :=
  "
                    <p><strong>üìö Reference:</strong> ".

Definition html_ref_1 : string :=
  "</p>
".

(* The end of a card (lines 557-560) and the footer (lines 562-604). *)

Definition html_card_close : string :=
  "
                </div>
            </div>
".

Definition html_footer_0 : string :=
  "
        </div>
        
        <!-- Action Buttons -->
        <div class=" ++ dq ++ "action-buttons" ++ dq ++ ">
            <a href=" ++ dq ++ "#" ++ dq ++ " onclick=" ++ dq ++ "window.print(); return false;" ++ dq ++ " class=" ++ dq ++ "btn-3d btn-primary" ++ dq ++ ">üñ®Ô∏è Print Report</a>
            <a href=" ++ dq ++ "#" ++ dq ++ " onclick=" ++ dq ++ "window.location.reload();" ++ dq ++ " class=" ++ dq ++ "btn-3d btn-success" ++ dq ++ ">üîÑ Refresh</a>
            <a href=" ++ dq ++ "#" ++ dq ++ " class=" ++ dq ++ "btn-3d btn-danger" ++ dq ++ ">üìß Email Report</a>
        </div>
        
        <!-- Footer -->
        <div class=" ++ dq ++ "footer" ++ dq ++ ">
            <p><strong>Generated by Web Security Scanner v1.0</strong></p>
            <p>Powered by OWASP ZAP | Report ID: ".

Definition html_footer_1 : string :=
  "</p>
            <p>¬© ".

Definition html_footer_2 : string :=
  " - All Rights Reserved</p>
        </div>
    </div>
    
    <script>
        // Add smooth scroll
        document.querySelectorAll('a[href^=" ++ dq ++ "#" ++ dq ++ "]').forEach(anchor => {
            anchor.addEventListener('click', function (e) {
                e.preventDefault();
                document.querySelector(this.getAttribute('href')).scrollIntoView({
                    behavior: 'smooth'
                });
            });
        });
        
        // Add animation on scroll
        const observerOptions = {
            threshold: 0.1,
            rootMargin: '0px 0px -100px 0px'
        };
        
        const observer = new IntersectionObserver((entries) => {
            entries.forEach(entry => {
                if (entry.isIntersecting) {
                    entry.target.style.opacity = '1';
                    entry.target.style.transform = 'translateY(0)';
                }
            });
        }, observerOptions);
        
        document.querySelectorAll('.vuln-card').forEach(card => {
            card.style.opacity = '0';
            card.style.transform = 'translateY(30px)';
            card.style.transition = 'all 0.6s ease';
            observer.observe(card);
        });
    </script>
</body>
</html>
".

(* Other non-ASCII literals: the PDF title (line 658) and the summary
   statuses of [generate_all_formats] (line 902). *)

Definition pdf_title : string := "üõ°Ô∏è SECURITY SCAN REPORT".

Definition status_success : string := "‚úÖ SUCCESS".

Definition status_failed : string := "‚ùå FAILED".

(* ================================================================== *)
(** ** Availability of the optional encoders

    [PDF_AVAILABLE], [DOCX_AVAILABLE] and [EXCEL_AVAILABLE], set once when
    the module is imported (whether [reportlab], [docx] and [openpyxl]
    could be imported), together with what the imported ReportLab does
    with a story.

    [reportlab_build story] is [None] when every [Paragraph] of the story
    parses its markup and [doc.build] lays the story out, and [Some msg]
    for the exception raised otherwise: the [ValueError] of ReportLab's
    paragraph parser (e.g. on an unclosed tag such as in [x <b>bold]) or
    a [LayoutError].  ReportLab's markup parser and layout engine are not
    embedded here: the theorems quantify over this behaviour, and a
    theorem that needs the PDF to be written states it as a hypothesis.
    The PDF file is only written when the canvas is saved at the end of
    [doc.build], so nothing is written when this raises. *)

Record caps := mk_caps {
  PDF_AVAILABLE : bool;
  DOCX_AVAILABLE : bool;
  EXCEL_AVAILABLE : bool;
  reportlab_build : list flowable -> option string }.

(** A ReportLab that builds every story it is given, as the installed one
    does for the stories of the example stores below. *)
Definition reportlab_builds_all : list flowable -> option string := fun _ => None.

Definition not_found_msg (scan_id : Z) : string :=
  "[!] Scan " ++ str_Z scan_id ++ " not found".

(* ================================================================== *)
(** ** [generate_html_report] *)

(** One iteration of the loop over [enumerate(data['vulnerabilities'], 1)]. *)
Definition html_vuln (idx : nat) (v : vuln) : string :=
  let severity_class := py_lower (v_severity v) in
  String.concat "" [html_card_0; severity_class; html_card_1; str_nat idx;
                    html_card_2; v_name v; html_card_3; severity_class;
                    html_card_4; v_severity v; html_card_5; v_description v;
                    html_card_6; v_url v; html_card_7; v_confidence v;
                    html_card_8]
  ++ (if py_truthy_opt (v_solution v)
      then String.concat "" [html_sol_0; fstr_opt (v_solution v); html_sol_1]
      else "")
  ++ (if py_truthy_opt (v_reference v)
      then String.concat "" [html_ref_0; fstr_opt (v_reference v); html_ref_1]
      else "")
  ++ html_card_close.

Fixpoint html_vulns (l : list (nat * vuln)) : string :=
  match l with
  | [] => ""
  | (idx, v) :: r => html_vuln idx v ++ html_vulns r
  end.

(** The first f-string, [generated] being the first reading of the clock. *)
Definition html_head (d : scan_data) (generated : string) : string :=
  String.concat "" [html_p_title; d_target_url d; html_p_style;
    str_Z (d_total_alerts d); html_p_high; str_Z (d_high_risk d);
    html_p_medium; str_Z (d_medium_risk d); html_p_low; str_Z (d_low_risk d);
    html_p_info; d_target_url d; html_p_type; py_title (d_scan_type d);
    html_p_start; d_start_time d; html_p_end; d_end_time d; html_p_status;
    py_title (d_status d); html_p_generated; generated; html_p_findings].

(** The last [html += ...], [year] being the year of the second reading. *)
Definition html_footer (scan_id year : Z) : string :=
  html_footer_0 ++ str_Z scan_id ++ html_footer_1 ++ str_Z year ++ html_footer_2.

Definition generate_html_report (scan_id : Z) (output_file : string) : M bool :=
  data <- get_scan_data scan_id ;;
  match data with
  | None => print (not_found_msg scan_id) ;;; ret false
  | Some d =>
      now1 <- datetime_now ;;
      let html := html_head d (strftime_report now1)
                  ++ html_vulns (enumerate 1 (d_vulnerabilities d)) in
      now2 <- datetime_now ;;
      let html := html ++ html_footer scan_id (dt_year now2) in
      write_file output_file (CText html) ;;;
      print ("[+] VIP HTML Report generated: " ++ output_file) ;;;
      ret true
  end.

(* ================================================================== *)
(** ** [generate_pdf_report] *)

Definition pdf_unavailable_msg : string :=
  "[!] PDF generation not available. Install: pip install reportlab".

Definition pdf_vuln (idx : nat) (v : vuln) : list flowable :=
  app [Paragraph ("<b>" ++ str_nat idx ++ ". " ++ v_name v ++ "</b> ["
                  ++ v_severity v ++ "]") "Heading3";
       Paragraph ("<b>Description:</b> " ++ v_description v) "Normal";
       Paragraph ("<b>Location:</b> " ++ v_url v) "Normal"]
  (app (if py_truthy_opt (v_solution v)
        then [Paragraph ("<b>Solution:</b> " ++ fstr_opt (v_solution v)) "Normal"]
        else [])
       [Spacer 1 20]).

Fixpoint pdf_vulns (l : list (nat * vuln)) : list flowable :=
  match l with
  | [] => []
  | (idx, v) :: r => app (pdf_vuln idx v) (pdf_vulns r)
  end.

Definition pdf_summary_data (d : scan_data) : list (list string) :=
  [["Metric"; "Count"];
   ["Total Issues"; str_Z (d_total_alerts d)];
   ["High Risk"; str_Z (d_high_risk d)];
   ["Medium Risk"; str_Z (d_medium_risk d)];
   ["Low Risk"; str_Z (d_low_risk d)]].

Definition pdf_info_data (d : scan_data) : list (list string) :=
  [["Target URL:"; d_target_url d];
   ["Scan Type:"; py_title (d_scan_type d)];
   ["Start Time:"; d_start_time d];
   ["End Time:"; d_end_time d];
   ["Status:"; py_title (d_status d)]].

Definition pdf_story (d : scan_data) : list flowable :=
  app [Paragraph pdf_title "CustomTitle"; Spacer 1 20;
       Table (pdf_summary_data d); Spacer 1 30;
       Paragraph "Scan Information" "CustomHeading";
       Table (pdf_info_data d); PageBreak;
       Paragraph "Detailed Findings" "CustomHeading"; Spacer 1 20]
      (pdf_vulns (enumerate 1 (d_vulnerabilities d))).

Definition generate_pdf_report (c : caps) (scan_id : Z) (output_file : string) : M bool :=
  if negb (PDF_AVAILABLE c) then
    print pdf_unavailable_msg ;;;
    ret false
  else
    data <- get_scan_data scan_id ;;
    match data with
    | None => print (not_found_msg scan_id) ;;; ret false
    | Some d =>
        match reportlab_build c (pdf_story d) with
        | Some msg => raise (ReportLabError msg)
        | None =>
            write_file output_file (CPdf (pdf_story d)) ;;;
            print ("[+] PDF Report generated: " ++ output_file) ;;;
            ret true
        end
    end.

(* ================================================================== *)
(** ** [generate_json_report] *)

Definition generate_json_report (scan_id : Z) (output_file : string) : M bool :=
  data <- get_scan_data scan_id ;;
  match data with
  | None => print (not_found_msg scan_id) ;;; ret false
  | Some d =>
      write_file output_file (CJson (py_of_scan_data d)) ;;;
      print ("[+] JSON Report generated: " ++ output_file) ;;;
      ret true
  end.

(* ================================================================== *)
(** ** [generate_docx_report] *)

Definition docx_unavailable_msg : string :=
  "[!] DOCX generation not available. Install: pip install python-docx".

Definition docx_vuln (idx : nat) (v : vuln) : list docx_block :=
  app [DocHeading (str_nat idx ++ ". " ++ v_name v) 2;
       DocParagraph ("Severity: " ++ v_severity v);
       DocParagraph ("Description: " ++ v_description v);
       DocParagraph ("Location: " ++ v_url v)]
  (app (if py_truthy_opt (v_solution v)
        then [DocParagraph ("Solution: " ++ fstr_opt (v_solution v))]
        else [])
       [DocParagraph ""]).

Fixpoint docx_vulns (l : list (nat * vuln)) : list docx_block :=
  match l with
  | [] => []
  | (idx, v) :: r => app (docx_vuln idx v) (docx_vulns r)
  end.

(** The 5x2 table, cell (i, j) at row i, column j. *)
Definition docx_summary_cells (d : scan_data) : list (list string) :=
  [["Total Issues"; str_Z (d_total_alerts d)];
   ["High Risk"; str_Z (d_high_risk d)];
   ["Medium Risk"; str_Z (d_medium_risk d)];
   ["Low Risk"; str_Z (d_low_risk d)];
   ["Target URL"; d_target_url d]].

Definition docx_body (d : scan_data) : list docx_block :=
  app [DocHeading "SECURITY SCAN REPORT" 0; DocHeading "Summary" 1;
       DocTable (docx_summary_cells d); DocPageBreak;
       DocHeading "Detailed Findings" 1]
      (docx_vulns (enumerate 1 (d_vulnerabilities d))).

(** lxml's check on every text python-docx sets on an element (the
    [_utf8] helper and [_is_valid_xml_utf8], applied to the UTF-8 bytes
    of the [str]): an ASCII byte must be an XML character (tab, LF, CR
    or at least a space: [xmlIsChar_ch]), and no three consecutive bytes
    may encode U+FFFE, U+FFFF or a surrogate. *)
Definition xml_is_char_ascii (b : nat) : bool :=
  (Nat.leb 9 b && Nat.leb b 10) || Nat.eqb b 13 || Nat.leb 32 b.

Definition xml_bad_triple (s : string) : bool :=
  match s with
  | String a (String b (String c _)) =>
      let n3 := (N_of_ascii a * 65536 + N_of_ascii b * 256 + N_of_ascii c)%N in
      N.eqb n3 15712190 || N.eqb n3 15712191            (* EF BF BE, EF BF BF *)
      || (N.leb 15573120 n3 && N.leb n3 15581119)        (* ED A0 80 .. ED BF BF *)
  | _ => false
  end.

Fixpoint xml_utf8_ok (s : string) : bool :=
  match s with
  | EmptyString => true
  | String a r =>
      (negb (Nat.ltb (nat_of_ascii a) 128) || xml_is_char_ascii (nat_of_ascii a))
      && negb (xml_bad_triple s) && xml_utf8_ok r
  end.

Definition lxml_value_error_msg : string :=
  "All strings must be XML compatible: Unicode or ASCII, no NULL bytes or control characters".

(** The texts python-docx hands to lxml for each call: the heading or
    paragraph text ([add_run]) and each table cell ([cell.text]). *)
Definition docx_block_texts (b : docx_block) : list string :=
  match b with
  | DocHeading t _ => [t]
  | DocParagraph t => [t]
  | DocTable cells => concat cells
  | DocPageBreak => []
  end.

Definition generate_docx_report (c : caps) (scan_id : Z) (output_file : string) : M bool :=
  if negb (DOCX_AVAILABLE c) then
    print docx_unavailable_msg ;;;
    ret false
  else
    data <- get_scan_data scan_id ;;
    match data with
    | None => print (not_found_msg scan_id) ;;; ret false
    | Some d =>
        if forallb xml_utf8_ok (flat_map docx_block_texts (docx_body d)) then
          write_file output_file (CDocx (docx_body d)) ;;;
          print ("[+] DOCX Report generated: " ++ output_file) ;;;
          ret true
        else raise (ValueError lxml_value_error_msg)
    end.

(* ================================================================== *)
(** ** [generate_excel_report] *)

Definition excel_unavailable_msg : string :=
  "[!] Excel generation not available. Install: pip install openpyxl".

(** The first [n] characters of a UTF-8 string ([value[:n]]): a byte
    [10xxxxxx] continues the character before it. *)
Definition utf8_continuation (a : ascii) : bool :=
  Nat.leb 128 (nat_of_ascii a) && Nat.ltb (nat_of_ascii a) 192.

Fixpoint utf8_take (n : N) (s : string) : string :=
  match s with
  | EmptyString => EmptyString
  | String a r =>
      if utf8_continuation a then String a (utf8_take n r)
      else if N.eqb n 0 then EmptyString
      else String a (utf8_take (N.pred n) r)
  end.

Definition excel_error_codes : list string :=
  ["#NULL!"; "#DIV/0!"; "#VALUE!"; "#REF!"; "#NAME?"; "#NUM!"; "#N/A"].

(** A [str] assigned to a cell ([Cell._bind_value]): [check_string]
    truncates it to 32767 characters; the cell is a formula when the
    value is longer than one character and starts with [=], an error
    when it is one of [ERROR_CODES], a string otherwise. *)
Definition xcell_of_str (s : string) : xcell :=
  let v := utf8_take 32767 s in
  if Nat.ltb 1 (String.length v) && String.prefix "=" v then XFormula v
  else if existsb (String.eqb v) excel_error_codes then XError v
  else XStr v.

(** [vuln['solution']]: [None] leaves the cell empty. *)
Definition xcell_opt (o : option string) : xcell :=
  match o with None => XNone | Some s => xcell_of_str s end.

Definition excel_summary (d : scan_data) : sheet :=
  mk_sheet "Summary"
    [("A1", xcell_of_str "SECURITY SCAN REPORT");
     ("A3", xcell_of_str "Target URL"); ("B3", xcell_of_str (d_target_url d));
     ("A4", xcell_of_str "Scan Type"); ("B4", xcell_of_str (d_scan_type d));
     ("A5", xcell_of_str "Total Issues"); ("B5", XInt (d_total_alerts d));
     ("A6", xcell_of_str "High Risk"); ("B6", XInt (d_high_risk d));
     ("A7", xcell_of_str "Medium Risk"); ("B7", XInt (d_medium_risk d));
     ("A8", xcell_of_str "Low Risk"); ("B8", XInt (d_low_risk d))]
    [].

Definition excel_vuln_row (idx : nat) (v : vuln) : list xcell :=
  [XInt (Z.of_nat idx); xcell_of_str (v_name v); xcell_of_str (v_severity v);
   xcell_of_str (v_confidence v); xcell_of_str (v_url v);
   xcell_of_str (v_description v); xcell_opt (v_solution v)].

Definition excel_headers : list xcell :=
  map xcell_of_str ["#"; "Name"; "Severity"; "Confidence"; "URL"; "Description"; "Solution"].

Definition excel_vulns (d : scan_data) : sheet :=
  mk_sheet "Vulnerabilities" []
    (excel_headers :: map (fun p => excel_vuln_row (fst p) (snd p))
                         (enumerate 1 (d_vulnerabilities d))).

(** [check_string] raises [IllegalCharacterError] when the truncated
    value matches [ILLEGAL_CHARACTERS_RE], the control characters
    [\000-\010], [\013-\014] and [\016-\037]; the cells are bound in
    the order the code assigns them. *)
Definition excel_illegal_char (a : ascii) : bool :=
  let b := nat_of_ascii a in Nat.ltb b 32 && negb (Nat.eqb b 9 || Nat.eqb b 10 || Nat.eqb b 13).

Definition excel_illegal (v : string) : bool :=
  existsb excel_illegal_char (list_ascii_of_string v).

Definition xcell_text (x : xcell) : list string :=
  match x with
  | XStr s | XFormula s | XError s => [s]
  | XInt _ | XNone => []
  end.

Definition sheet_texts (sh : sheet) : list string :=
  app (flat_map (fun p => xcell_text (snd p)) (sh_cells sh))
      (flat_map (flat_map xcell_text) (sh_rows sh)).

Definition generate_excel_report (c : caps) (scan_id : Z) (output_file : string) : M bool :=
  if negb (EXCEL_AVAILABLE c) then
    print excel_unavailable_msg ;;;
    ret false
  else
    data <- get_scan_data scan_id ;;
    match data with
    | None => print (not_found_msg scan_id) ;;; ret false
    | Some d =>
        match find excel_illegal (flat_map sheet_texts [excel_summary d; excel_vulns d]) with
        | Some v => raise (IllegalCharacterError (v ++ " cannot be used in worksheets."))
        | None =>
            write_file output_file (CXlsx [excel_summary d; excel_vulns d]) ;;;
            print ("[+] Excel Report generated: " ++ output_file) ;;;
            ret true
        end
    end.

(* ================================================================== *)
(** ** [csv.writer] (default dialect [excel]: delimiter [,], quote
    character [DQ], [QUOTE_MINIMAL], doubled quotes, line terminator
    CR LF; the file is opened with [newline='']) *)

Definition DQ : ascii := "034"%char.
Definition CR : ascii := "013"%char.
Definition LF : ascii := "010"%char.
Definition crlf : string := String CR (String LF EmptyString).

(** Characters that make [QUOTE_MINIMAL] quote a field: the delimiter,
    the quote character and the characters of the line terminator. *)
Definition csv_special (c : ascii) : bool :=
  Ascii.eqb c "," || Ascii.eqb c DQ || Ascii.eqb c CR || Ascii.eqb c LF.

Fixpoint has_special (s : string) : bool :=
  match s with
  | EmptyString => false
  | String c s' => csv_special c || has_special s'
  end.

Fixpoint csv_double (s : string) : string :=
  match s with
  | EmptyString => EmptyString
  | String c s' =>
      if Ascii.eqb c DQ then String DQ (String DQ (csv_double s'))
      else String c (csv_double s')
  end.

Definition csv_field (f : string) : string :=
  if has_special f then String DQ (csv_double f ++ dq) else f.

Fixpoint csv_join (fs : list string) : string :=
  match fs with
  | [] => ""
  | [f] => csv_field f
  | f :: r => csv_field f ++ "," ++ csv_join r
  end.

(** [writer.writerow(fields)]; a record made of one empty field is
    written as two quote characters. *)
Definition csv_writerow (fs : list string) : string :=
  match fs with
  | [EmptyString] => dq ++ dq ++ crlf
  | _ => csv_join fs ++ crlf
  end.

Fixpoint csv_writerows (rows : list (list string)) : string :=
  match rows with
  | [] => ""
  | r :: rs => csv_writerow r ++ csv_writerows rs
  end.

(** [csv.writer] writes [None] as an empty field. *)
Definition csv_cell_opt (o : option string) : string :=
  match o with None => "" | Some s => s end.

(** Reading the text back ([csv.reader] on the same dialect), used to
    state what can be recovered from the written file. *)
Inductive cstate : Type := CStart | CUnquoted | CQuoted | CQuoteSeen.

Fixpoint csv_parse (st : cstate) (fld : string) (row : list string) (s : string)
  : list (list string) :=
  match s with
  | EmptyString =>
      match st, fld, row with
      | CStart, EmptyString, [] => []
      | _, _, _ => [app row [fld]]
      end
  | String c s' =>
      match st, Ascii.eqb c DQ with
      | CQuoted, true => csv_parse CQuoteSeen fld row s'
      | CQuoted, false => csv_parse CQuoted (fld ++ String c EmptyString) row s'
      | CQuoteSeen, true => csv_parse CQuoted (fld ++ dq) row s'
      | CStart, true => csv_parse CQuoted fld row s'
      | _, _ =>
          if Ascii.eqb c "," then csv_parse CStart "" (app row [fld]) s'
          else if Ascii.eqb c LF then app row [fld] :: csv_parse CStart "" [] s'
          else if Ascii.eqb c CR then csv_parse st fld row s'
          else csv_parse CUnquoted (fld ++ String c EmptyString) row s'
      end
  end.

Definition csv_read (s : string) : list (list string) := csv_parse CStart "" [] s.

(* ================================================================== *)
(** ** [generate_csv_report] *)

Definition csv_header : list string :=
  ["Vulnerability Name"; "Severity"; "Confidence"; "URL"; "Description"; "Solution"].

Definition csv_vuln_row (v : vuln) : list string :=
  [v_name v; v_severity v; v_confidence v; v_url v; v_description v;
   csv_cell_opt (v_solution v)].

Definition csv_text (d : scan_data) : string :=
  csv_writerows (csv_header :: map csv_vuln_row (d_vulnerabilities d)).

Definition generate_csv_report (scan_id : Z) (output_file : string) : M bool :=
  data <- get_scan_data scan_id ;;
  match data with
  | None => print (not_found_msg scan_id) ;;; ret false
  | Some d =>
      write_file output_file (CText (csv_text d)) ;;;
      print ("[+] CSV Report generated: " ++ output_file) ;;;
      ret true
  end.

(* ================================================================== *)
(** ** The six renderers and [generate_all_formats] *)

Inductive fmt : Type := FHtml | FJson | FCsv | FPdf | FDocx | FExcel.

Definition render (c : caps) (f : fmt) : Z -> string -> M bool :=
  match f with
  | FHtml => generate_html_report
  | FJson => generate_json_report
  | FCsv => generate_csv_report
  | FPdf => generate_pdf_report c
  | FDocx => generate_docx_report c
  | FExcel => generate_excel_report c
  end.

(** The dict [formats], in insertion order. *)
Definition formats (c : caps) (base_name : string) : list (string * fmt * string) :=
  app [("HTML", FHtml, base_name ++ ".html");
       ("JSON", FJson, base_name ++ ".json");
       ("CSV", FCsv, base_name ++ ".csv")]
  (app (if PDF_AVAILABLE c then [("PDF", FPdf, base_name ++ ".pdf")] else [])
  (app (if DOCX_AVAILABLE c then [("DOCX", FDocx, base_name ++ ".docx")] else [])
       (if EXCEL_AVAILABLE c then [("Excel", FExcel, base_name ++ ".xlsx")] else []))).

(** The loop [for format_name, (func, filename) in formats.items()];
    [results] is the dict [results] in insertion order (the keys of
    [formats] are distinct, so each assignment adds a key). *)
Fixpoint run_formats (c : caps) (scan_id : Z) (fs : list (string * fmt * string))
  (results : list (string * bool)) : M (list (string * bool)) :=
  match fs with
  | [] => ret results
  | (format_name, f, filename) :: r =>
      print (nl ++ "[*] Generating " ++ format_name ++ " report...") ;;;
      success <- render c f scan_id filename ;;
      run_formats c scan_id r (app results [(format_name, success)])
  end.

Fixpoint print_summary (results : list (string * bool)) : M unit :=
  match results with
  | [] => ret tt
  | (format_name, success) :: r =>
      print (ljust 12 format_name ++ " : "
             ++ (if success then status_success else status_failed)) ;;;
      print_summary r
  end.

Definition generate_all_formats (c : caps) (scan_id : Z) (base_name : string)
  : M (list (string * bool)) :=
  print (nl ++ str_repeat 60 "=") ;;;
  print "GENERATING REPORTS IN ALL FORMATS" ;;;
  print (str_repeat 60 "=") ;;;
  results <- run_formats c scan_id (formats c base_name) [] ;;
  print (nl ++ str_repeat 60 "=") ;;;
  print "REPORT GENERATION SUMMARY" ;;;
  print (str_repeat 60 "=") ;;;
  print_summary results ;;;
  print (str_repeat 60 "=" ++ nl) ;;;
  ret results.


(* ================================================================== *)
(** ** Auxiliary definitions for the statements *)

(** The renderer declines because its encoder is absent, with the
    message it prints. *)
Definition declined_msg (c : caps) (f : fmt) : option string :=
  match f with
  | FPdf => if PDF_AVAILABLE c then None else Some pdf_unavailable_msg
  | FDocx => if DOCX_AVAILABLE c then None else Some docx_unavailable_msg
  | FExcel => if EXCEL_AVAILABLE c then None else Some excel_unavailable_msg
  | _ => None
  end.

(** The exception the PDF, DOCX or Excel renderer raises on the data of
    a scan, through ReportLab, lxml or openpyxl (the checks of
    [generate_pdf_report], [generate_docx_report] and
    [generate_excel_report]); the other renderers raise none there. *)
Definition encoder_error (c : caps) (f : fmt) (d : scan_data) : option exn :=
  match f with
  | FPdf => option_map ReportLabError (reportlab_build c (pdf_story d))
  | FDocx =>
      if forallb xml_utf8_ok (flat_map docx_block_texts (docx_body d)) then None
      else Some (ValueError lxml_value_error_msg)
  | FExcel =>
      option_map (fun v => IllegalCharacterError (v ++ " cannot be used in worksheets."))
        (find excel_illegal (flat_map sheet_texts [excel_summary d; excel_vulns d]))
  | _ => None
  end.

(** The row [SELECT * FROM scans WHERE id = ?] finds, and the findings
    of a scan in stored order. *)
Definition scan_lookup (scan_id : Z) (rows : list scan_row) : option scan_row :=
  find (fun s => Z.eqb (sr_id s) scan_id) rows.
Definition findings_of (scan_id : Z) (vrows : list vuln_row) : list vuln_row :=
  filter (fun v => Z.eqb (vr_scan_id v) scan_id) vrows.

(** The encoder of a format accepts the data [get_scan_data] returns
    for a scan on a store, when it returns some. *)
Definition encoder_accepts_scan (c : caps) (f : fmt) (scan_id : Z) (db : database) : bool :=
  match db_scans db, db_vulnerabilities db with
  | Some rows, Some vrows =>
      match scan_lookup scan_id rows with
      | Some s =>
          match encoder_error c f (data_of_rows s (findings_of scan_id vrows)) with
          | None => true
          | Some _ => false
          end
      | None => true
      end
  | _, _ => true
  end.

(** Stores in which every empty-string solution or reference is
    replaced by NULL. *)
Definition blank_to_none (o : option string) : option string :=
  match o with
  | Some EmptyString => None
  | _ => o
  end.

Definition blank_row (v : vuln_row) : vuln_row :=
  mk_vuln_row (vr_id v) (vr_scan_id v) (vr_name v) (vr_severity v)
    (vr_confidence v) (vr_url v) (vr_description v)
    (blank_to_none (vr_solution v)) (blank_to_none (vr_reference v)).

Definition blank_db (db : database) : database :=
  mk_database (db_scans db) (option_map (map blank_row) (db_vulnerabilities db)).

Definition set_db (w : world) (db : database) : world :=
  mk_world db (w_files w) (w_unwritable w) (w_stdout w) (w_conns w) (w_clock w) (w_tick w).

(** Two runs with the same result and the same files afterwards. *)
Definition same_output {A} (r1 r2 : outcome A * world) : Prop :=
  fst r1 = fst r2 /\ w_files (snd r1) = w_files (snd r2).

(** Concrete stores: the example of the specification (scan 42 with
    three findings and counts 3/1/1/1). *)
Definition demo_clock (n : nat) : datetime := mk_datetime 2026 1 5 9 3 7.

Definition scan_42 : scan_row :=
  mk_scan_row 42 "http://testphp.vulnweb.com" "quick" "2026-01-05 08:00:00"
    "2026-01-05 08:30:00" 3 1 1 1 "completed".

Definition findings_42 : list vuln_row :=
  [mk_vuln_row 1 42 "SQL Injection" "High" "Medium" "http://testphp.vulnweb.com/a"
     "SQL injection may be possible." (Some "Use prepared statements.")
     (Some "https://owasp.org/www-community/attacks/SQL_Injection");
   mk_vuln_row 2 42 "Reflected XSS" "Medium" "Medium" "http://testphp.vulnweb.com/b"
     "Cross-site scripting." (Some "Encode output.") None;
   mk_vuln_row 3 42 "Missing Security Header" "Low" "High" "http://testphp.vulnweb.com/"
     "A header is missing." None None].

Definition store_42 : database := mk_database (Some [scan_42]) (Some findings_42).

Definition world_of (db : database) : world :=
  mk_world db [] [] [] [] demo_clock 0.


Definition format_name (x : string * fmt * string) : string :=
  let '(n, _, _) := x in n.
Definition format_file (x : string * fmt * string) : string :=
  let '(_, _, p) := x in p.
Definition format_fmt (x : string * fmt * string) : fmt :=
  let '(_, f, _) := x in f.


(** Two clocks that agree on their first reading and straddle the new
    year on the second. *)
Definition steady_clock (n : nat) : datetime := mk_datetime 2025 12 31 23 59 59.
Definition new_year_clock (n : nat) : datetime :=
  match n with
  | O => mk_datetime 2025 12 31 23 59 59
  | S _ => mk_datetime 2026 1 1 0 0 0
  end.


(** Reading the outputs back.  In the HTML document a finding is a
    card opened by the tag [card_marker]; [html_card_count] counts its
    occurrences.  [has_lt] tells whether a text contains a [<], and
    [tail_safe] that no proper tail of a text could be completed into
    the marker by what follows it. *)
Definition card_marker : string := "<div class=" ++ dq ++ "vuln-card ".

Fixpoint count_occ_str (p s : string) : nat :=
  match s with
  | EmptyString => 0
  | String _ s' => (if String.prefix p s then 1 else 0) + count_occ_str p s'
  end.

Definition html_card_count (s : string) : nat := count_occ_str card_marker s.

Fixpoint has_lt (s : string) : bool :=
  match s with
  | EmptyString => false
  | String c s' => Ascii.eqb c "<"%char || has_lt s'
  end.

Fixpoint tail_safe (s : string) : bool :=
  match s with
  | EmptyString => true
  | String _ s' =>
      ((String.length card_marker <=? String.length s)%nat
       || negb (String.prefix s card_marker)) && tail_safe s'
  end.

(** The finding entries of the other documents: the JSON list under
    ["vulnerabilities"], the PDF paragraphs in style ["Heading3"], the
    DOCX headings of level 2 and the rows of the Excel sheet
    ["Vulnerabilities"] below its header. *)
Definition json_entries (p : pyval) : list pyval :=
  match py_getitem p "vulnerabilities" with Some (PyList l) => l | _ => [] end.

Definition pdf_entries (st : list flowable) : list string :=
  flat_map (fun x => match x with
                     | Paragraph t style => if String.eqb style "Heading3" then [t] else []
                     | _ => []
                     end) st.

Definition docx_entries (b : list docx_block) : list string :=
  flat_map (fun x => match x with
                     | DocHeading t lvl => if Z.eqb lvl 2 then [t] else []
                     | _ => []
                     end) b.

Definition excel_entries (sheets : list sheet) : list (list xcell) :=
  match find (fun sh => String.eqb (sh_title sh) "Vulnerabilities") sheets with
  | Some sh => tl (sh_rows sh)
  | None => []
  end.


(** Whether a stored row has a [<] in one of the texts the HTML
    renderer inserts. *)
Definition scan_has_lt (s : scan_row) : bool :=
  has_lt (sr_target_url s) || has_lt (sr_scan_type s) || has_lt (sr_start_time s)
  || has_lt (sr_end_time s) || has_lt (sr_status s).

Definition vuln_row_has_lt (v : vuln_row) : bool :=
  has_lt (vr_name v) || has_lt (vr_severity v) || has_lt (vr_confidence v)
  || has_lt (vr_url v) || has_lt (vr_description v)
  || has_lt (fstr_opt (vr_solution v)) || has_lt (fstr_opt (vr_reference v)).


(* ================================================================== *)
(** ** The script's entry point ([if __name__ == "__main__"], lines
    910-955) *)

(** The lines read by [input()] are Python [str] values; a line is here
    a string whose characters stand for the code points U+0000 to
    U+00FF, one character per code point. *)

(** [str.isspace()] on U+0000 to U+00FF. *)
Definition py_isspace (c : ascii) : bool :=
  existsb (Nat.eqb (nat_of_ascii c)) [9; 10; 11; 12; 13; 28; 29; 30; 31; 32; 133; 160]%nat.

Fixpoint py_lstrip (s : string) : string :=
  match s with
  | EmptyString => EmptyString
  | String c r => if py_isspace c then py_lstrip r else s
  end.

Fixpoint py_rstrip (s : string) : string :=
  match s with
  | EmptyString => EmptyString
  | String c r =>
      let r' := py_rstrip r in
      if py_isspace c && String.eqb r' "" then EmptyString else String c r'
  end.

(** [str.strip()]. *)
Definition py_strip (s : string) : string := py_rstrip (py_lstrip s).

Fixpoint str_forallb (f : ascii -> bool) (s : string) : bool :=
  match s with
  | EmptyString => true
  | String c r => f c && str_forallb f r
  end.

(** The decimal digits 0 to 9, the only characters below U+0100 that
    [int()] accepts as digits. *)
Definition is_decimal (c : ascii) : bool :=
  (48 <=? nat_of_ascii c)%nat && (nat_of_ascii c <=? 57)%nat.

(** [str.isdigit()] on U+0000 to U+00FF: the decimal digits and the
    superscripts two, three and one (U+00B2, U+00B3, U+00B9); false on
    the empty string. *)
Definition py_isdigit (s : string) : bool :=
  match s with
  | EmptyString => false
  | _ => str_forallb (fun c => is_decimal c
                              || existsb (Nat.eqb (nat_of_ascii c)) [178; 179; 185]%nat) s
  end.

Fixpoint digits_value (acc : Z) (s : string) : option Z :=
  match s with
  | EmptyString => Some acc
  | String c r =>
      if is_decimal c
      then digits_value (10 * acc + Z.of_nat (nat_of_ascii c - 48)) r
      else None
  end.

(** [int(s)] on a string of [isdigit] characters: its decimal value, or
    [None] for the [ValueError] raised on a superscript. *)
Definition py_int (s : string) : option Z :=
  match s with
  | EmptyString => None
  | _ => digits_value 0 s
  end.

(** How the script ends: normally, by [exit(code)], or by an uncaught
    [ValueError] (from [int()]) or [EOFError] (from [input()]). *)
Inductive main_end : Type :=
| MainDone
| MainExit (code : Z)
| MainValueError
| MainEOFError.

(** [input(prompt)] on the remaining lines of standard input; the
    prompt is recorded as one entry of the output. *)
Definition py_input (prompt : string) (stdin : list string)
  : M (option (string * list string)) :=
  print prompt ;;;
  ret (match stdin with [] => None | l :: r => Some (l, r) end).

Fixpoint print_lines (l : list string) : M unit :=
  match l with
  | [] => ret tt
  | s :: r => print s ;;; print_lines r
  end.

(** The banner literal of line 911, byte for byte as UTF-8. *)
Definition main_banner : string :=
  "
    ‚ïî‚ïê‚ïê‚ïê‚ïê‚ïê‚ïê‚ïê‚ïê‚ïê‚ïê‚ïê‚ïê‚ïê‚ïê‚ïê‚ïê‚ïê‚ïê‚ïê‚ïê‚ïê‚ïê‚ïê‚ïê‚ïê‚ïê‚ïê‚ïê‚ïê‚ïê‚ïê‚ïê‚ïê‚ïê‚ïê‚ïê‚ïê‚ïê‚ïê‚ïê‚ïê‚ïê‚ïê‚ïê‚ïê‚ïê‚ïê‚ïê‚ïê‚ïê‚ïê‚ïê‚ïê‚ïê‚ïê‚ïê‚ïê‚ïê‚ïê‚ïó
    ‚ïë           VIP REPORT GENERATOR v2.0                      ‚ïë
    ‚ïë    Multiple Formats: HTML, PDF, JSON, CSV, DOCX, Excel  ‚ïë
    ‚ïö‚ïê‚ïê‚ïê‚ïê‚ïê‚ïê‚ïê‚ïê‚ïê‚ïê‚ïê‚ïê‚ïê‚ïê‚ïê‚ïê‚ïê‚ïê‚ïê‚ïê‚ïê‚ïê‚ïê‚ïê‚ïê‚ïê‚ïê‚ïê‚ïê‚ïê‚ïê‚ïê‚ïê‚ïê‚ïê‚ïê‚ïê‚ïê‚ïê‚ïê‚ïê‚ïê‚ïê‚ïê‚ïê‚ïê‚ïê‚ïê‚ïê‚ïê‚ïê‚ïê‚ïê‚ïê‚ïê‚ïê‚ïê‚ïê‚ïê‚ïù
    ".

Definition main_menu : list string :=
  [nl ++ "Select Report Format:"; "1. HTML (VIP 3D Design)"; "2. PDF"; "3. JSON";
   "4. CSV"; "5. DOCX (Word)"; "6. Excel"; "7. ALL FORMATS"].

(** The [if]/[elif] chain of lines 940-955 on the stripped [choice]; each
    renderer is called with its default [output_file] and
    [generate_all_formats] with its default [base_name]. *)
Definition main_dispatch (c : caps) (scan_id : Z) (choice : string) : M unit :=
  if String.eqb choice "1" then generate_html_report scan_id "report.html" ;;; ret tt
  else if String.eqb choice "2" then generate_pdf_report c scan_id "report.pdf" ;;; ret tt
  else if String.eqb choice "3" then generate_json_report scan_id "report.json" ;;; ret tt
  else if String.eqb choice "4" then generate_csv_report scan_id "report.csv" ;;; ret tt
  else if String.eqb choice "5" then generate_docx_report c scan_id "report.docx" ;;; ret tt
  else if String.eqb choice "6" then generate_excel_report c scan_id "report.xlsx" ;;; ret tt
  else if String.eqb choice "7" then generate_all_formats c scan_id "security_report" ;;; ret tt
  else print "[!] Invalid choice".

Definition completed_msg : string := nl ++ "[+] Report generation completed!".

(** Lines 911-957, [stdin] being the lines of standard input. *)
Definition main (c : caps) (stdin : list string) : M main_end :=
  print main_banner ;;;
  i1 <- py_input (nl ++ "Enter Scan ID: ") stdin ;;
  match i1 with
  | None => ret MainEOFError
  | Some (line1, stdin1) =>
      let scan_id := py_strip line1 in
      if negb (py_isdigit scan_id) then
        print "[!] Invalid Scan ID" ;;;
        ret (MainExit 1)
      else
        match py_int scan_id with
        | None => ret MainValueError
        | Some n =>
            print_lines main_menu ;;;
            i2 <- py_input (nl ++ "Your choice (1-7): ") stdin1 ;;
            match i2 with
            | None => ret MainEOFError
            | Some (line2, _) =>
                main_dispatch c n (py_strip line2) ;;;
                print completed_msg ;;;
                ret MainDone
            end
        end
  end.

(* ================================================================== *)
(** ** Auxiliary definitions for the properties of the entry point *)

(** The choices that call one renderer, with the renderer and the file it
    is given. *)
Definition main_renderer_choices : list (string * fmt * string) :=
  [("1", FHtml, "report.html"); ("2", FPdf, "report.pdf"); ("3", FJson, "report.json");
   ("4", FCsv, "report.csv"); ("5", FDocx, "report.docx"); ("6", FExcel, "report.xlsx")].

(** Every path the script can be led to write. *)
Definition main_output_files : list string :=
  ["report.html"; "report.pdf"; "report.json"; "report.csv"; "report.docx"; "report.xlsx";
   "security_report.html"; "security_report.json"; "security_report.csv";
   "security_report.pdf"; "security_report.docx"; "security_report.xlsx"].

(** What the script prints before it reads the choice. *)
Definition main_preamble : list string :=
  app [main_banner; nl ++ "Enter Scan ID: "] (app main_menu [nl ++ "Your choice (1-7): "]).

(** The value of a decimal numeral, read most significant digit first. *)
Fixpoint uint_value (acc : Z) (d : Decimal.uint) : Z :=
  match d with
  | Decimal.Nil => acc
  | Decimal.D0 l => uint_value (10 * acc) l
  | Decimal.D1 l => uint_value (10 * acc + 1) l
  | Decimal.D2 l => uint_value (10 * acc + 2) l
  | Decimal.D3 l => uint_value (10 * acc + 3) l
  | Decimal.D4 l => uint_value (10 * acc + 4) l
  | Decimal.D5 l => uint_value (10 * acc + 5) l
  | Decimal.D6 l => uint_value (10 * acc + 6) l
  | Decimal.D7 l => uint_value (10 * acc + 7) l
  | Decimal.D8 l => uint_value (10 * acc + 8) l
  | Decimal.D9 l => uint_value (10 * acc + 9) l
  end.

(** One line of the summary table of [generate_all_formats]. *)
Definition summary_line (r : string * bool) : string :=
  ljust 12 (fst r) ++ " : " ++ (if snd r then status_success else status_failed).

(** From [w] to [w']: the store, the unwritable paths and the clock are
    unchanged; output and connection events are only appended; files are
    only added on top, at paths satisfying [ok]. *)
Definition frame (ok : string -> Prop) (w w' : world) : Prop :=
  w_db w' = w_db w /\ w_unwritable w' = w_unwritable w /\ w_clock w' = w_clock w /\
  (exists out, w_stdout w' = app (w_stdout w) out) /\
  (exists cs, w_conns w' = app (w_conns w) cs) /\
  (exists fs, w_files w' = app fs (w_files w) /\ Forall (fun x => ok (fst x)) fs).

(** Every run of [m], whatever its outcome, stays within [frame ok]. *)
Definition stays {A} (ok : string -> Prop) (m : M A) : Prop :=
  forall w, frame ok w (snd (m w)).

(** A line of standard input made of [str.isspace()] characters only. *)
Definition py_blank (s : string) : bool := str_forallb py_isspace s.

(* ################################################################## *)
(** * Properties *)

(* ================================================================== *)
(** ** Strings *)

Lemma str_app_assoc (a b c : string) : (a ++ b) ++ c = a ++ (b ++ c).
Proof. induction a as [|x a IH]; simpl; [reflexivity | now rewrite IH]. Qed.

Lemma str_app_nil_r (a : string) : a ++ "" = a.
Proof. induction a as [|x a IH]; simpl; [reflexivity | now rewrite IH]. Qed.

(* ================================================================== *)
(** ** The CSV text reads back as the rows written *)

Section CsvRoundTrip.

Lemma eqb_false_neq (a b : ascii) : Ascii.eqb a b = false -> a <> b.
Proof. intros H E; subst; now rewrite Ascii.eqb_refl in H. Qed.

(** Outside a quoted field, the delimiter ends the field and the line
    terminator ends the record. *)
Lemma csv_parse_comma (st : cstate) fld row s :
  st <> CQuoted ->
  csv_parse st fld row (String "," s) = csv_parse CStart "" (app row [fld]) s.
Proof. intros H; destruct st; try reflexivity; contradiction. Qed.

Lemma csv_parse_crlf (st : cstate) fld row s :
  st <> CQuoted ->
  csv_parse st fld row (crlf ++ s) = app row [fld] :: csv_parse CStart "" [] s.
Proof. intros H; destruct st; try reflexivity; contradiction. Qed.

Lemma csv_parse_plain fld row g s :
  has_special g = false ->
  csv_parse CUnquoted fld row (g ++ s) = csv_parse CUnquoted (fld ++ g) row s.
Proof.
  revert fld; induction g as [|c g IH]; intros fld Hg; simpl.
  - now rewrite str_app_nil_r.
  - simpl in Hg; apply orb_false_iff in Hg as [Hc Hg].
    unfold csv_special in Hc.
    repeat rewrite orb_false_iff in Hc; destruct Hc as [[[H1 H2] H3] H4].
    rewrite ?H1, ?H2, ?H3, ?H4, IH by exact Hg.
    now rewrite str_app_assoc.
Qed.

Lemma csv_parse_doubled fld row g s :
  csv_parse CQuoted fld row (csv_double g ++ s) = csv_parse CQuoted (fld ++ g) row s.
Proof.
  revert fld; induction g as [|c g IH]; intros fld; simpl.
  - now rewrite str_app_nil_r.
  - destruct (Ascii.eqb c DQ) eqn:E; simpl.
    + rewrite ?Ascii.eqb_refl, IH, str_app_assoc.
      apply Ascii.eqb_eq in E; subst; reflexivity.
    + rewrite ?E, IH, str_app_assoc; reflexivity.
Qed.

(** A written field is read back whole, leaving the reader in a state
    that is not inside quotes. *)
Lemma csv_parse_field row f s :
  exists st, st <> CQuoted /\
    csv_parse CStart "" row (csv_field f ++ s) = csv_parse st f row s.
Proof.
  unfold csv_field; destruct (has_special f) eqn:Hf.
  - exists CQuoteSeen; split; [discriminate|].
    simpl; rewrite ?Ascii.eqb_refl, str_app_assoc, csv_parse_doubled.
    simpl; rewrite ?Ascii.eqb_refl; reflexivity.
  - destruct f as [|c g].
    + exists CStart; split; [discriminate | reflexivity].
    + exists CUnquoted; split; [discriminate|].
      simpl in Hf; apply orb_false_iff in Hf as [Hc Hg].
      unfold csv_special in Hc.
      repeat rewrite orb_false_iff in Hc; destruct Hc as [[[H1 H2] H3] H4].
      simpl; rewrite ?H1, ?H2, ?H3, ?H4, csv_parse_plain by exact Hg.
      reflexivity.
Qed.

Lemma csv_parse_join row fs s :
  fs <> [] ->
  csv_parse CStart "" row (csv_join fs ++ crlf ++ s)
  = app row fs :: csv_parse CStart "" [] s.
Proof.
  revert row; induction fs as [|f fs IH]; intros row Hne; [contradiction|].
  destruct fs as [|f2 fs].
  - simpl csv_join; destruct (csv_parse_field row f (crlf ++ s)) as [st [Hst E]].
    rewrite E, csv_parse_crlf by exact Hst; reflexivity.
  - change (csv_join (f :: f2 :: fs)) with (csv_field f ++ "," ++ csv_join (f2 :: fs)).
    rewrite !str_app_assoc.
    destruct (csv_parse_field row f ("," ++ csv_join (f2 :: fs) ++ crlf ++ s))
      as [st [Hst E]].
    rewrite E; simpl ("," ++ _); rewrite csv_parse_comma by exact Hst.
    rewrite IH by discriminate.
    now rewrite <- app_assoc.
Qed.

Lemma csv_parse_writerow fs s :
  fs <> [] ->
  csv_parse CStart "" [] (csv_writerow fs ++ s) = fs :: csv_parse CStart "" [] s.
Proof.
  intros Hne; unfold csv_writerow.
  destruct fs as [|f [|f2 fs]]; [contradiction| |].
  - destruct f as [|c g].
    + reflexivity.
    + rewrite str_app_assoc; apply (csv_parse_join [] [String c g]); discriminate.
  - replace (match f with "" | _ => csv_join (f :: f2 :: fs) ++ crlf end)
      with (csv_join (f :: f2 :: fs) ++ crlf) by (destruct f; reflexivity).
    rewrite str_app_assoc; apply (csv_parse_join []); discriminate.
Qed.

(** Round trip: reading the text written for non-empty records gives
    the records back. *)
Lemma csv_read_writerows rows :
  Forall (fun r => r <> []) rows -> csv_read (csv_writerows rows) = rows.
Proof.
  unfold csv_read; induction rows as [|r rows IH]; intros H; [reflexivity|].
  inversion H as [|? ? Hr Hrows]; subst.
  simpl csv_writerows; rewrite csv_parse_writerow by exact Hr.
  now rewrite IH.
Qed.

End CsvRoundTrip.

(* ================================================================== *)
(** ** [get_scan_data] *)

Lemma get_scan_data_eq scan_id w :
  get_scan_data scan_id w =
  match db_scans (w_db w) with
  | None => (Raise (OperationalError "no such table: scans"),
             set_conns w (app (w_conns w) [ConnOpen]))
  | Some rows =>
      match scan_lookup scan_id rows with
      | None => (Ok None, set_conns w (app (w_conns w) [ConnOpen; ConnClose]))
      | Some s =>
          match db_vulnerabilities (w_db w) with
          | None => (Raise (OperationalError "no such table: vulnerabilities"),
                     set_conns w (app (w_conns w) [ConnOpen]))
          | Some vrows =>
              (Ok (Some (data_of_rows s (findings_of scan_id vrows))),
               set_conns w (app (w_conns w) [ConnOpen; ConnClose]))
          end
      end
  end.
Proof.
  unfold get_scan_data, bind, sqlite_connect, select_scan, select_vulns,
    conn_close, ret, scan_lookup, findings_of; simpl.
  destruct (db_scans (w_db w)) as [rows|]; [|reflexivity].
  destruct (find _ rows) as [s|]; simpl.
  - destruct (db_vulnerabilities (w_db w)); [|reflexivity].
    unfold set_conns; simpl; now rewrite <- app_assoc.
  - unfold set_conns; simpl; now rewrite <- app_assoc.
Qed.

Lemma scan_lookup_none scan_id rows :
  scan_lookup scan_id rows = None <-> (forall s, In s rows -> sr_id s <> scan_id).
Proof.
  unfold scan_lookup; induction rows as [|r rows IH]; simpl.
  - split; [intros _ s []| reflexivity].
  - destruct (Z.eqb (sr_id r) scan_id) eqn:E.
    + split; [discriminate|]. intros H; exfalso.
      apply (H r (or_introl eq_refl)); now apply Z.eqb_eq.
    + rewrite IH; split.
      * intros H s [<-|Hs]; [now apply Z.eqb_neq | auto].
      * intros H s Hs; apply H; auto.
Qed.

Lemma scan_lookup_some scan_id rows s :
  scan_lookup scan_id rows = Some s -> In s rows /\ sr_id s = scan_id.
Proof.
  unfold scan_lookup; intros H.
  destruct (find_some _ _ H) as [Hin Hid]; split; [exact Hin|].
  now apply Z.eqb_eq.
Qed.

Ltac run_gsd H :=
  unfold bind, ret, print; rewrite get_scan_data_eq; rewrite H; simpl.

(* ================================================================== *)
(** ** C1: an unknown scan identifier *)



(* ================================================================== *)
(** ** C3: an absent encoder *)

(** C3 (counterexample). The PDF, DOCX and Excel renderers with their
    encoder absent return the very value they return for an unknown scan
    identifier: [False]. *)
Lemma declined_same_as_not_found :
  let w := world_of (mk_database (Some []) (Some [])) in
  let none := mk_caps false false false reportlab_builds_all in
  let all := mk_caps true true true reportlab_builds_all in
  fst (generate_pdf_report none 7 "report.pdf" w)
    = fst (generate_pdf_report all 7 "report.pdf" w) /\
  fst (generate_docx_report none 7 "report.docx" w)
    = fst (generate_docx_report all 7 "report.docx" w) /\
  fst (generate_excel_report none 7 "report.xlsx" w)
    = fst (generate_excel_report all 7 "report.xlsx" w).
Proof. vm_compute; repeat split. Qed.

Lemma not_found_msg_differs (scan_id : Z) :
  pdf_unavailable_msg <> not_found_msg scan_id /\
  docx_unavailable_msg <> not_found_msg scan_id /\
  excel_unavailable_msg <> not_found_msg scan_id.
Proof. repeat split; intros H; inversion H. Qed.

(** C3 (amended). A renderer whose encoder is absent returns [False]
    (the value of an unknown scan identifier or a failure) without
    opening the store or writing a file; the only trace of the declined
    capability is its message on standard output, which differs from the
    not-found message. *)
Theorem declined_capability_returns_false (c : caps) (f : fmt) (msg : string)
  (scan_id : Z) (output_file : string) (w : world) :
  declined_msg c f = Some msg ->
  render c f scan_id output_file w = (Ok false, set_stdout w (app (w_stdout w) [msg])) /\
  (forall id, msg <> not_found_msg id).
Proof.
  intros H; destruct f; simpl in H; try discriminate;
    [ destruct (PDF_AVAILABLE c) eqn:E | destruct (DOCX_AVAILABLE c) eqn:E
    | destruct (EXCEL_AVAILABLE c) eqn:E ]; try discriminate;
    injection H as <-; simpl render;
    [ unfold generate_pdf_report | unfold generate_docx_report
    | unfold generate_excel_report ]; rewrite E; cbv [negb]; cbv beta iota;
    (split; [reflexivity | intros id; apply not_found_msg_differs]).
Qed.

Lemma declined_capability_returns_false_witness :
  declined_msg (mk_caps false true true reportlab_builds_all) FPdf = Some pdf_unavailable_msg /\
  render (mk_caps false true true reportlab_builds_all) FPdf 42 "report.pdf" (world_of store_42)
  = (Ok false, set_stdout (world_of store_42) [pdf_unavailable_msg]).
Proof.
  split; [reflexivity|].
  apply (declined_capability_returns_false (mk_caps false true true reportlab_builds_all) FPdf
           pdf_unavailable_msg 42 "report.pdf" (world_of store_42)); reflexivity.
Defined.

(* ================================================================== *)
(** ** C7: the result of [get_scan_data] *)



(* ================================================================== *)
(** ** C8: the store connection *)

(** C8 (counterexample). When a query raises (here the table
    [vulnerabilities] is missing), [get_scan_data] propagates the
    exception with its connection still open. *)
Lemma connection_left_open_on_error :
  let w := world_of (mk_database (Some [scan_42]) None) in
  fst (get_scan_data 42 w) = Raise (OperationalError "no such table: vulnerabilities") /\
  w_conns (snd (get_scan_data 42 w)) = [ConnOpen].
Proof. split; reflexivity. Qed.

(** C8 (amended). Every call of [get_scan_data] opens one connection;
    on both returning paths (scan found, scan not found) it closes it
    before returning, and when a query raises it leaves it open. *)
Theorem get_scan_data_connection (scan_id : Z) (w : world) :
  w_conns (snd (get_scan_data scan_id w)) =
  app (w_conns w)
    (match fst (get_scan_data scan_id w) with
     | Ok _ => [ConnOpen; ConnClose]
     | Raise _ => [ConnOpen]
     end).
Proof.
  rewrite get_scan_data_eq.
  destruct (db_scans (w_db w)) as [rows|]; [|reflexivity].
  destruct (scan_lookup scan_id rows); [|reflexivity].
  destruct (db_vulnerabilities (w_db w)); reflexivity.
Qed.

(* ================================================================== *)
(** ** C9: empty solution and reference *)

Lemma py_truthy_opt_blank (o : option string) :
  py_truthy_opt (blank_to_none o) = py_truthy_opt o.
Proof. destruct o as [[|c s]|]; reflexivity. Qed.

Lemma fstr_opt_blank (o : option string) :
  py_truthy_opt o = true -> fstr_opt (blank_to_none o) = fstr_opt o.
Proof. destruct o as [[|c s]|]; simpl; congruence. Qed.

Lemma findings_of_blank scan_id l :
  findings_of scan_id (map blank_row l) = map blank_row (findings_of scan_id l).
Proof.
  unfold findings_of; induction l as [|v l IH]; simpl; [reflexivity|].
  destruct (Z.eqb (vr_scan_id v) scan_id); simpl; now rewrite IH.
Qed.

Lemma html_vulns_blank n l :
  html_vulns (enumerate n (map vuln_of_row (map blank_row l)))
  = html_vulns (enumerate n (map vuln_of_row l)).
Proof.
  revert n; induction l as [|v l IH]; intros n; [reflexivity|].
  simpl html_vulns; rewrite IH; f_equal.
  unfold html_vuln; simpl v_solution; simpl v_reference.
  rewrite !py_truthy_opt_blank.
  destruct (py_truthy_opt (vr_solution v)) eqn:E1;
    destruct (py_truthy_opt (vr_reference v)) eqn:E2;
    rewrite ?fstr_opt_blank by assumption; reflexivity.
Qed.

Lemma pdf_vulns_blank n l :
  pdf_vulns (enumerate n (map vuln_of_row (map blank_row l)))
  = pdf_vulns (enumerate n (map vuln_of_row l)).
Proof.
  revert n; induction l as [|v l IH]; intros n; [reflexivity|].
  simpl pdf_vulns; rewrite IH; f_equal.
  unfold pdf_vuln; simpl v_solution.
  rewrite !py_truthy_opt_blank.
  destruct (py_truthy_opt (vr_solution v)) eqn:E1;
    rewrite ?fstr_opt_blank by assumption; reflexivity.
Qed.

Lemma docx_vulns_blank n l :
  docx_vulns (enumerate n (map vuln_of_row (map blank_row l)))
  = docx_vulns (enumerate n (map vuln_of_row l)).
Proof.
  revert n; induction l as [|v l IH]; intros n; [reflexivity|].
  simpl docx_vulns; rewrite IH; f_equal.
  unfold docx_vuln; simpl v_solution.
  rewrite !py_truthy_opt_blank.
  destruct (py_truthy_opt (vr_solution v)) eqn:E1;
    rewrite ?fstr_opt_blank by assumption; reflexivity.
Qed.

Lemma html_document_blank s l g :
  html_head (data_of_rows s (map blank_row l)) g
    ++ html_vulns (enumerate 1 (d_vulnerabilities (data_of_rows s (map blank_row l))))
  = html_head (data_of_rows s l) g
    ++ html_vulns (enumerate 1 (d_vulnerabilities (data_of_rows s l))).
Proof.
  change (d_vulnerabilities (data_of_rows s ?x)) with (map vuln_of_row x).
  rewrite html_vulns_blank; reflexivity.
Qed.

Lemma pdf_story_blank s l :
  pdf_story (data_of_rows s (map blank_row l)) = pdf_story (data_of_rows s l).
Proof.
  unfold pdf_story.
  change (d_vulnerabilities (data_of_rows s ?x)) with (map vuln_of_row x).
  rewrite pdf_vulns_blank; reflexivity.
Qed.

Lemma docx_body_blank s l :
  docx_body (data_of_rows s (map blank_row l)) = docx_body (data_of_rows s l).
Proof.
  unfold docx_body.
  change (d_vulnerabilities (data_of_rows s ?x)) with (map vuln_of_row x).
  rewrite docx_vulns_blank; reflexivity.
Qed.

(** Case analysis on the checks of ReportLab, lxml and openpyxl. *)
Ltac encoder_cases :=
  repeat match goal with
  | |- context [reportlab_build ?c ?x] => destruct (reportlab_build c x)
  | |- context [forallb xml_utf8_ok ?l] => destruct (forallb xml_utf8_ok l)
  | |- context [find excel_illegal ?l] => destruct (find excel_illegal l)
  end.

Ltac world_steps :=
  cbv beta iota zeta delta [datetime_now write_file set_tick set_conns set_db
    set_files set_stdout w_db w_files w_unwritable w_stdout w_conns w_clock w_tick].

(** C9. In the HTML, PDF and DOCX renderers a solution (and, in HTML, a
    reference) equal to the empty string is rendered exactly as NULL:
    running a renderer on a store where every empty solution and
    reference is replaced by NULL gives the same result and the same
    files. *)
Theorem empty_text_renders_as_none (c : caps) (scan_id : Z) (output_file : string)
  (w : world) :
  let w0 := set_db w (blank_db (w_db w)) in
  same_output (render c FHtml scan_id output_file w0) (render c FHtml scan_id output_file w) /\
  same_output (render c FPdf scan_id output_file w0) (render c FPdf scan_id output_file w) /\
  same_output (render c FDocx scan_id output_file w0) (render c FDocx scan_id output_file w).
Proof.
  intros w0; subst w0; destruct w as [db files unw out conns clock tick].
  unfold same_output, render, generate_html_report, generate_pdf_report,
    generate_docx_report, bind, ret, print.
  destruct (PDF_AVAILABLE c), (DOCX_AVAILABLE c); cbv [negb]; cbv beta iota;
  rewrite !get_scan_data_eq; cbn [w_db set_db blank_db db_scans db_vulnerabilities];
  (destruct (db_scans db) as [rows|]; [|repeat split; reflexivity]);
  (destruct (scan_lookup scan_id rows) as [s|]; [|repeat split; reflexivity]);
  (destruct (db_vulnerabilities db) as [vrows|]; [|repeat split; reflexivity]);
  cbn [option_map]; rewrite findings_of_blank; world_steps;
  rewrite ?html_document_blank, ?pdf_story_blank, ?docx_body_blank;
  encoder_cases; unfold raise;
  destruct (existsb (String.eqb output_file) unw); repeat split; reflexivity.
Qed.

(* ================================================================== *)
(** ** C2: the seven fields in the JSON and CSV outputs *)

Lemma file_at_head path c fs : file_at path ((path, c) :: fs) = Some c.
Proof. simpl; now rewrite String.eqb_refl. Qed.

Lemma csv_rows_nonempty (vs : list vuln) :
  Forall (fun r => r <> []) (csv_header :: map csv_vuln_row vs).
Proof.
  constructor; [discriminate|].
  induction vs as [|v vs IH]; simpl; constructor; [discriminate | exact IH].
Qed.

Lemma csv_text_reads_back (d : scan_data) :
  csv_read (csv_text d) = csv_header :: map csv_vuln_row (d_vulnerabilities d).
Proof. apply csv_read_writerows, csv_rows_nonempty. Qed.

(** C2 (counterexample). The CSV renderer writes no reference column:
    two stores that differ only in a finding's reference give the same
    CSV file, so the reference cannot be recovered from it. *)
Lemma csv_drops_reference :
  let noref := map (fun v => mk_vuln_row (vr_id v) (vr_scan_id v) (vr_name v)
                      (vr_severity v) (vr_confidence v) (vr_url v)
                      (vr_description v) (vr_solution v) None) findings_42 in
  let w1 := world_of store_42 in
  let w2 := world_of (mk_database (Some [scan_42]) (Some noref)) in
  map vr_reference findings_42 <> map vr_reference noref /\
  file_at "report.csv" (w_files (snd (generate_csv_report 42 "report.csv" w1)))
  = file_at "report.csv" (w_files (snd (generate_csv_report 42 "report.csv" w2))).
Proof. split; [discriminate | vm_compute; reflexivity]. Qed.

(** C2 (amended). For an existing scan and a writable path, the JSON
    renderer writes the scan dict whose "vulnerabilities" list holds, for
    every finding in stored order, a dict with its name, severity,
    confidence, url, description, solution and reference; the CSV
    renderer writes a text that reads back as the header followed by one
    record per finding holding its name, severity, confidence, url,
    description and solution (NULL written as an empty field): the
    reference is not written. *)
Theorem json_csv_findings (scan_id : Z) (output_file : string) (w : world)
  (rows : list scan_row) (vrows : list vuln_row) (s : scan_row) :
  db_scans (w_db w) = Some rows ->
  db_vulnerabilities (w_db w) = Some vrows ->
  scan_lookup scan_id rows = Some s ->
  existsb (String.eqb output_file) (w_unwritable w) = false ->
  let vs := map vuln_of_row (findings_of scan_id vrows) in
  (fst (generate_json_report scan_id output_file w) = Ok true /\
   exists j,
     file_at output_file (w_files (snd (generate_json_report scan_id output_file w)))
       = Some (CJson j) /\
     py_getitem j "vulnerabilities" = Some (PyList (map py_of_vuln vs)) /\
     Forall (fun v =>
       py_getitem (py_of_vuln v) "name" = Some (PyStr (v_name v)) /\
       py_getitem (py_of_vuln v) "severity" = Some (PyStr (v_severity v)) /\
       py_getitem (py_of_vuln v) "confidence" = Some (PyStr (v_confidence v)) /\
       py_getitem (py_of_vuln v) "url" = Some (PyStr (v_url v)) /\
       py_getitem (py_of_vuln v) "description" = Some (PyStr (v_description v)) /\
       py_getitem (py_of_vuln v) "solution" = Some (py_opt (v_solution v)) /\
       py_getitem (py_of_vuln v) "reference" = Some (py_opt (v_reference v))) vs) /\
  (fst (generate_csv_report scan_id output_file w) = Ok true /\
   exists t,
     file_at output_file (w_files (snd (generate_csv_report scan_id output_file w)))
       = Some (CText t) /\
     csv_read t = csv_header
       :: map (fun v => [v_name v; v_severity v; v_confidence v; v_url v;
                         v_description v; csv_cell_opt (v_solution v)]) vs).
Proof.
  intros Hs Hv Hl Hw vs; destruct w as [db files unw out conns clock tick];
    simpl in Hs, Hv, Hw.
  unfold generate_json_report, generate_csv_report, bind, ret, print.
  rewrite !get_scan_data_eq; cbn [w_db]; rewrite Hs, Hl, Hv; world_steps; rewrite Hw.
  split; split; try reflexivity.
  - eexists; split; [apply file_at_head|]; split; [reflexivity|].
    apply Forall_forall; intros v _; repeat split.
  - eexists; split; [apply file_at_head|].
    rewrite csv_text_reads_back; reflexivity.
Qed.

Lemma json_csv_findings_witness :
  db_scans (w_db (world_of store_42)) = Some [scan_42] /\
  db_vulnerabilities (w_db (world_of store_42)) = Some findings_42 /\
  scan_lookup 42 [scan_42] = Some scan_42 /\
  existsb (String.eqb "report.json") (w_unwritable (world_of store_42)) = false /\
  fst (generate_json_report 42 "report.json" (world_of store_42)) = Ok true.
Proof.
  do 4 (split; [reflexivity|]).
  apply (json_csv_findings 42 "report.json" (world_of store_42) [scan_42] findings_42 scan_42);
    reflexivity.
Defined.

(* ================================================================== *)
(** ** C5: [generate_all_formats] *)

Lemma file_at_cons_present p q c fs :
  file_at p fs <> None -> file_at p ((q, c) :: fs) <> None.
Proof. simpl; destruct (String.eqb p q); [discriminate | tauto]. Qed.

Lemma accepts_pdf c d :
  encoder_error c FPdf d = None -> reportlab_build c (pdf_story d) = None.
Proof. cbn [encoder_error]; destruct (reportlab_build c (pdf_story d)); [discriminate | reflexivity]. Qed.

Lemma accepts_docx c d :
  encoder_error c FDocx d = None ->
  forallb xml_utf8_ok (flat_map docx_block_texts (docx_body d)) = true.
Proof. cbn [encoder_error]; destruct (forallb _ _); [reflexivity | discriminate]. Qed.

Lemma accepts_excel c d :
  encoder_error c FExcel d = None ->
  find excel_illegal (flat_map sheet_texts [excel_summary d; excel_vulns d]) = None.
Proof. cbn [encoder_error]; destruct (find _ _); [discriminate | reflexivity]. Qed.

Lemma encoder_accepts_scan_eq c f scan_id db rows vrows s :
  db_scans db = Some rows -> db_vulnerabilities db = Some vrows ->
  scan_lookup scan_id rows = Some s ->
  encoder_accepts_scan c f scan_id db = true ->
  encoder_error c f (data_of_rows s (findings_of scan_id vrows)) = None.
Proof.
  unfold encoder_accepts_scan; intros -> -> ->.
  destruct (encoder_error _ _ _); [discriminate | reflexivity].
Qed.

(** One renderer run on a store with both tables, with its encoder
    present and its path writable: it opens and closes one connection,
    returns whether the scan exists, writes its file when it does, and
    keeps every file already there. *)
Lemma render_on_store c f scan_id file w rows vrows :
  db_scans (w_db w) = Some rows ->
  db_vulnerabilities (w_db w) = Some vrows ->
  declined_msg c f = None ->
  encoder_accepts_scan c f scan_id (w_db w) = true ->
  existsb (String.eqb file) (w_unwritable w) = false ->
  let found := match scan_lookup scan_id rows with Some _ => true | None => false end in
  exists w', render c f scan_id file w = (Ok found, w') /\
    w_db w' = w_db w /\ w_unwritable w' = w_unwritable w /\
    w_conns w' = app (w_conns w) [ConnOpen; ConnClose] /\
    (forall p, file_at p (w_files w) <> None -> file_at p (w_files w') <> None) /\
    (found = true -> file_at file (w_files w') <> None).
Proof.
  intros Hs Hv Hd He Hw found; subst found.
  destruct w as [db files unw out conns clock tick]; simpl in Hs, Hv, Hw, He.
  destruct f; simpl in Hd;
    [ | | | destruct (PDF_AVAILABLE c) eqn:E | destruct (DOCX_AVAILABLE c) eqn:E
    | destruct (EXCEL_AVAILABLE c) eqn:E ]; try discriminate;
    simpl render;
    [ unfold generate_html_report | unfold generate_json_report
    | unfold generate_csv_report | unfold generate_pdf_report; rewrite E
    | unfold generate_docx_report; rewrite E | unfold generate_excel_report; rewrite E ];
    cbv [negb]; cbv beta iota; unfold bind, ret, print;
    rewrite get_scan_data_eq; cbn [w_db]; rewrite Hs;
    (destruct (scan_lookup scan_id rows) as [s|] eqn:Hl;
     [ rewrite Hv; world_steps;
       pose proof (encoder_accepts_scan_eq _ _ _ _ _ _ _ Hs Hv Hl He) as He';
       try rewrite (accepts_pdf _ _ He'); try rewrite (accepts_docx _ _ He');
       try rewrite (accepts_excel _ _ He'); world_steps; rewrite Hw
     | world_steps ]);
    (eexists; split; [reflexivity|]);
    repeat split; cbn [w_files];
    solve [ discriminate
          | intros p Hp; apply file_at_cons_present; exact Hp
          | intros _; rewrite file_at_head; discriminate
          | intros p Hp; exact Hp ].
Qed.

Lemma formats_available c base :
  Forall (fun x => declined_msg c (format_fmt x) = None) (formats c base).
Proof.
  destruct c as [[] [] [] rb]; repeat constructor.
Qed.

(** The loop over formats on a store with both tables, every encoder in
    the list present and every path writable. *)
Lemma run_formats_on_store c scan_id fs acc w rows vrows :
  db_scans (w_db w) = Some rows ->
  db_vulnerabilities (w_db w) = Some vrows ->
  Forall (fun x => declined_msg c (format_fmt x) = None) fs ->
  Forall (fun x => encoder_accepts_scan c (format_fmt x) scan_id (w_db w) = true) fs ->
  Forall (fun x => existsb (String.eqb (format_file x)) (w_unwritable w) = false) fs ->
  let found := match scan_lookup scan_id rows with Some _ => true | None => false end in
  exists w', run_formats c scan_id fs acc w
             = (Ok (app acc (map (fun x => (format_name x, found)) fs)), w') /\
    w_db w' = w_db w /\ w_unwritable w' = w_unwritable w /\
    w_conns w' = app (w_conns w) (concat (repeat [ConnOpen; ConnClose] (length fs))) /\
    (forall p, file_at p (w_files w) <> None -> file_at p (w_files w') <> None) /\
    (found = true -> Forall (fun x => file_at (format_file x) (w_files w') <> None) fs).
Proof.
  intros Hs Hv Hd He Hw found.
  revert acc w Hs Hv He Hw; induction fs as [|[[n f] file] fs IH]; intros acc w Hs Hv He Hw.
  - exists w; simpl; rewrite app_nil_r, app_nil_r; repeat split; auto.
  - inversion Hd as [|? ? Hd1 Hd2]; inversion Hw as [|? ? Hw1 Hw2];
      inversion He as [|? ? He1 He2]; subst; clear Hd Hw He.
    simpl in Hd1, Hw1, He1.
    set (w1 := set_stdout w (w_stdout w ++ [nl ++ "[*] Generating " ++ n ++ " report..."])).
    destruct (render_on_store c f scan_id file w1 rows vrows Hs Hv Hd1 He1 Hw1)
      as (w2 & Hr & Hdb2 & Hun2 & Hc2 & Hk2 & Hf2).
    fold found in Hr, Hf2.
    assert (Hw2' : Forall (fun x => existsb (String.eqb (format_file x)) (w_unwritable w2) = false) fs)
      by (rewrite Hun2; exact Hw2).
    assert (He2' : Forall (fun x => encoder_accepts_scan c (format_fmt x) scan_id (w_db w2) = true) fs)
      by (rewrite Hdb2; exact He2).
    destruct (IH Hd2 (app acc [(n, found)]) w2 ltac:(rewrite Hdb2; exact Hs)
                 ltac:(rewrite Hdb2; exact Hv) He2' Hw2')
      as (w3 & Hr3 & Hdb3 & Hun3 & Hc3 & Hk3 & Hf3).
    exists w3; split.
    + cbn [run_formats]; unfold bind at 1, print at 1; cbv beta iota.
      unfold bind at 1; fold w1; rewrite Hr; cbv beta iota; rewrite Hr3.
      now rewrite <- app_assoc.
    + rewrite Hdb3, Hdb2, Hun3, Hun2, Hc3, Hc2; cbn [w1 set_stdout w_db w_unwritable w_conns].
      repeat split; try reflexivity.
      * simpl; now rewrite <- !app_assoc.
      * intros p Hp; apply Hk3, Hk2; exact Hp.
      * intros Hfd; constructor; [apply Hk3, Hf2, Hfd | apply Hf3, Hfd].
Qed.

Lemma print_summary_stdout results w :
  exists out, print_summary results w = (Ok tt, set_stdout w (app (w_stdout w) out)).
Proof.
  revert w; induction results as [|[n b] r IH]; intros w.
  - exists []; simpl; rewrite app_nil_r; now destruct w.
  - cbn [print_summary]; unfold bind at 1, print at 1; cbv beta iota.
    destruct (IH (set_stdout w (app (w_stdout w) [ljust 12 n ++ " : "
                   ++ (if b then status_success else status_failed)])))
      as [out Hout].
    rewrite Hout; eexists; destruct w; cbn; now rewrite <- app_assoc.
Qed.




(* ================================================================== *)
(** ** C4: repeated invocations and the clock *)

Lemma file_at_head_eq p c fs : file_at p ((p, c) :: fs) = Some c.
Proof. simpl; now rewrite String.eqb_refl. Qed.

(** C4 (counterexample). Two HTML renders of scan 42 whose
    ["Report Generated"] timestamps are equal still differ: the footer
    carries the year of a second clock reading. *)
Lemma html_footer_year_second_timestamp :
  let w1 := mk_world store_42 [] [] [] [] steady_clock 0 in
  let w2 := mk_world store_42 [] [] [] [] new_year_clock 0 in
  strftime_report (w_clock w1 (w_tick w1)) = strftime_report (w_clock w2 (w_tick w2)) /\
  fst (generate_html_report 42 "r.html" w1) = Ok true /\
  fst (generate_html_report 42 "r.html" w2) = Ok true /\
  file_at "r.html" (w_files (snd (generate_html_report 42 "r.html" w1)))
  <> file_at "r.html" (w_files (snd (generate_html_report 42 "r.html" w2))).
Proof.
  vm_compute; split; [reflexivity | split; [reflexivity | split; [reflexivity |]]].
  intros H; discriminate H.
Qed.

(** C4. Two invocations of the same renderer for the same scan and
    destination, on the same store and the same unwritable paths, return
    the same value and write the same content at the destination.  For
    the HTML renderer this needs two clock readings to agree: the
    ["Report Generated"] timestamp (first reading) and the footer's
    copyright year (second reading); the other renderers do not read the
    clock. *)
Theorem renderer_repeat_same_output c f scan_id output_file w1 w2 :
  w_db w1 = w_db w2 ->
  w_unwritable w1 = w_unwritable w2 ->
  (f = FHtml ->
   strftime_report (w_clock w1 (w_tick w1)) = strftime_report (w_clock w2 (w_tick w2)) /\
   dt_year (w_clock w1 (S (w_tick w1))) = dt_year (w_clock w2 (S (w_tick w2)))) ->
  fst (render c f scan_id output_file w1) = fst (render c f scan_id output_file w2) /\
  (fst (render c f scan_id output_file w1) = Ok true ->
   file_at output_file (w_files (snd (render c f scan_id output_file w1)))
   = file_at output_file (w_files (snd (render c f scan_id output_file w2)))).
Proof.
  destruct w1 as [db files1 unw out1 conns1 clock1 tick1],
           w2 as [db2 files2 unw2 out2 conns2 clock2 tick2].
  cbn [w_db w_unwritable w_clock w_tick]; intros <- <- Hclk.
  destruct f;
    [ destruct (Hclk eq_refl) as [Hg Hy]; clear Hclk | clear Hclk ..];
    unfold render, generate_html_report, generate_json_report, generate_csv_report,
      generate_pdf_report, generate_docx_report, generate_excel_report, bind, ret, print;
    [ | | | destruct (PDF_AVAILABLE c) | destruct (DOCX_AVAILABLE c)
    | destruct (EXCEL_AVAILABLE c) ];
    cbv [negb]; cbv beta iota; try (split; [reflexivity | discriminate]);
    rewrite !get_scan_data_eq; cbn [w_db];
    (destruct (db_scans db) as [rows|]; [|split; [reflexivity | discriminate]]);
    (destruct (scan_lookup scan_id rows) as [s|]; [|split; [reflexivity | discriminate]]);
    (destruct (db_vulnerabilities db) as [vrows|]; [|split; [reflexivity | discriminate]]);
    world_steps; encoder_cases; unfold raise; try (split; [reflexivity | discriminate]);
    (destruct (existsb (String.eqb output_file) unw);
     [split; [reflexivity | discriminate] | ]);
    split; try reflexivity; intros Hok; cbn [fst snd] in Hok |- *;
    (discriminate Hok || (rewrite !file_at_head_eq; try reflexivity)).
  rewrite Hg, Hy; reflexivity.
Qed.

Lemma renderer_repeat_same_output_witness :
  let w1 := world_of store_42 in
  let w2 := mk_world store_42 [("r.html", CText "old")] [] [] [] demo_clock 5 in
  fst (render (mk_caps true true true reportlab_builds_all) FHtml 42 "r.html" w1) = Ok true /\
  file_at "r.html" (w_files (snd (render (mk_caps true true true reportlab_builds_all) FHtml 42 "r.html" w1)))
  = file_at "r.html" (w_files (snd (render (mk_caps true true true reportlab_builds_all) FHtml 42 "r.html" w2))).
Proof.
  intros w1 w2.
  assert (H : fst (render (mk_caps true true true reportlab_builds_all) FHtml 42 "r.html" w1) = Ok true)
    by (vm_compute; reflexivity).
  split; [exact H|].
  apply (renderer_repeat_same_output (mk_caps true true true reportlab_builds_all) FHtml 42 "r.html" w1 w2
           eq_refl eq_refl (fun _ => conj eq_refl eq_refl)); exact H.
Defined.

(* ================================================================== *)
(** ** C6: finding entries and aggregate counts *)

Section CardCount.

Local Abbreviation cnt := (count_occ_str card_marker).

Lemma prefix_length p s : String.prefix p s = true -> (String.length p <= String.length s)%nat.
Proof.
  revert s; induction p as [|x p IH]; intros [|y s]; simpl; try lia; try discriminate.
  destruct (ascii_dec x y); [intros H; specialize (IH s H); lia | discriminate].
Qed.

Lemma prefix_app_long p s t :
  (String.length p <= String.length s)%nat -> String.prefix p (s ++ t) = String.prefix p s.
Proof.
  revert s; induction p as [|x p IH]; intros [|y s]; simpl; try reflexivity;
    try (intros; lia); [intros _; destruct t; reflexivity|].
  intros H; destruct (ascii_dec x y); [apply IH; lia | reflexivity].
Qed.

Lemma prefix_app_short p s t :
  String.prefix p (s ++ t) = true -> (String.length s < String.length p)%nat ->
  String.prefix s p = true.
Proof.
  revert p; induction s as [|y s IH]; intros [|x p]; simpl; try reflexivity;
    try (intros; lia).
  destruct (ascii_dec x y) as [->|]; [|discriminate].
  destruct (ascii_dec y y) as [_|]; [|contradiction].
  intros H1 H2; apply IH; [exact H1 | lia].
Qed.

Lemma prefix_app_l s t p : String.prefix (s ++ t) p = true -> String.prefix s p = true.
Proof.
  revert p; induction s as [|y s IH]; intros [|x p]; simpl; try reflexivity; try discriminate.
  destruct (ascii_dec y x); [apply IH | discriminate].
Qed.

Lemma str_length_app s t : String.length (s ++ t) = (String.length s + String.length t)%nat.
Proof. induction s as [|x s IH]; simpl; [reflexivity | now rewrite IH]. Qed.

Lemma tail_safe_head x s :
  tail_safe (String x s) = true ->
  (String.length card_marker <= String.length (String x s))%nat
  \/ String.prefix (String x s) card_marker = false.
Proof.
  cbn [tail_safe]; intros H; apply andb_true_iff in H as [H _].
  apply orb_true_iff in H as [H|H]; [left; apply Nat.leb_le, H | right].
  now apply negb_true_iff.
Qed.

Lemma count_app a b : tail_safe a = true -> cnt (a ++ b) = cnt a + cnt b.
Proof.
  induction a as [|x a IH]; intros Ha; [reflexivity|].
  change (String x a ++ b) with (String x (a ++ b)).
  cbn [count_occ_str]; rewrite IH by (cbn [tail_safe] in Ha; now apply andb_true_iff in Ha).
  change (String x (a ++ b)) with (String x a ++ b).
  destruct (Nat.leb_spec (String.length card_marker) (String.length (String x a))) as [L|L].
  - rewrite prefix_app_long by exact L; lia.
  - destruct (tail_safe_head x a Ha) as [L'|P]; [lia|].
    destruct (String.prefix card_marker (String x a ++ b)) eqn:E1.
    + apply prefix_app_short in E1; [congruence | exact L].
    + destruct (String.prefix card_marker (String x a)) eqn:E2; [|lia].
      apply prefix_length in E2; lia.
Qed.

Lemma tail_safe_app a b : tail_safe a = true -> tail_safe b = true -> tail_safe (a ++ b) = true.
Proof.
  induction a as [|x a IH]; intros Ha Hb; [exact Hb|].
  change (String x a ++ b) with (String x (a ++ b)); cbn [tail_safe].
  apply andb_true_iff; split; [|apply IH; [cbn [tail_safe] in Ha; now apply andb_true_iff in Ha | exact Hb]].
  change (String x (a ++ b)) with (String x a ++ b).
  destruct (tail_safe_head x a Ha) as [L|P]; apply orb_true_iff.
  - left; apply Nat.leb_le; rewrite str_length_app; lia.
  - right; apply negb_true_iff.
    destruct (String.prefix (String x a ++ b) card_marker) eqn:E; [|reflexivity].
    apply prefix_app_l in E; congruence.
Qed.

Lemma no_lt_safe s : has_lt s = false -> tail_safe s = true /\ cnt s = 0.
Proof.
  induction s as [|x s IH]; intros H; [split; reflexivity|].
  cbn [has_lt] in H; apply orb_false_iff in H as [Hx Hs].
  destruct (IH Hs) as [T C]; cbn [tail_safe count_occ_str]; rewrite T, C.
  apply Ascii.eqb_neq in Hx.
  unfold card_marker; cbn [String.prefix String.append dq].
  destruct (ascii_dec x "<"%char); [contradiction|].
  destruct (ascii_dec "<"%char x); [congruence|].
  rewrite orb_true_r; split; reflexivity.
Qed.

Lemma count_concat l :
  Forall (fun s => tail_safe s = true) l ->
  cnt (String.concat "" l) = list_sum (map cnt l).
Proof.
  induction l as [|a [|b l] IH]; intros H; [reflexivity | simpl; lia |].
  inversion H as [|? ? Ha Hl]; subst.
  change (String.concat "" (a :: b :: l)) with (a ++ String.concat "" (b :: l)).
  rewrite count_app by exact Ha; rewrite IH by exact Hl; reflexivity.
Qed.

Lemma tail_safe_concat l :
  Forall (fun s => tail_safe s = true) l -> tail_safe (String.concat "" l) = true.
Proof.
  induction l as [|a [|b l] IH]; intros H; [reflexivity | now inversion H |].
  inversion H as [|? ? Ha Hl]; subst.
  change (String.concat "" (a :: b :: l)) with (a ++ String.concat "" (b :: l)).
  apply tail_safe_app; [exact Ha | apply IH, Hl].
Qed.

End CardCount.

Lemma has_lt_app a b : has_lt (a ++ b) = has_lt a || has_lt b.
Proof. induction a as [|x a IH]; simpl; [reflexivity | now rewrite IH, orb_assoc]. Qed.

Lemma has_lt_uint d : has_lt (NilEmpty.string_of_uint d) = false.
Proof. induction d; simpl; try rewrite IHd; reflexivity. Qed.

Lemma has_lt_str_Z z : has_lt (str_Z z) = false.
Proof.
  unfold str_Z, NilZero.string_of_int, NilZero.string_of_uint.
  destruct (Z.to_int z) as [d|d]; destruct d; cbn [has_lt];
    rewrite ?has_lt_uint; reflexivity.
Qed.

Lemma has_lt_str_nat n : has_lt (str_nat n) = false.
Proof. apply has_lt_str_Z. Qed.

Lemma has_lt_repeat_0 n : has_lt (str_repeat n "0") = false.
Proof. induction n as [|n IH]; simpl; [reflexivity | exact IH]. Qed.

Lemma has_lt_strftime t : has_lt (strftime_report t) = false.
Proof.
  unfold strftime_report, zpad2.
  rewrite !has_lt_app, !has_lt_str_Z, !has_lt_repeat_0; reflexivity.
Qed.

Lemma to_lower_lt c : Ascii.eqb (to_lower c) "<"%char = Ascii.eqb c "<"%char.
Proof. destruct c as [[] [] [] [] [] [] [] []]; reflexivity. Qed.

Lemma to_upper_lt c : Ascii.eqb (to_upper c) "<"%char = Ascii.eqb c "<"%char.
Proof. destruct c as [[] [] [] [] [] [] [] []]; reflexivity. Qed.

Lemma has_lt_py_lower s : has_lt (py_lower s) = has_lt s.
Proof. induction s as [|x s IH]; simpl; [reflexivity | now rewrite to_lower_lt, IH]. Qed.

Lemma has_lt_title b s : has_lt (title_aux b s) = has_lt s.
Proof.
  revert b; induction s as [|x s IH]; intros b; simpl; [reflexivity|].
  destruct (is_upper x || is_lower x); destruct b; simpl;
    rewrite ?to_lower_lt, ?to_upper_lt, IH; reflexivity.
Qed.

Lemma has_lt_py_title s : has_lt (py_title s) = has_lt s.
Proof. apply has_lt_title. Qed.

Lemma no_lt_tail_safe s : has_lt s = false -> tail_safe s = true.
Proof. intros H; exact (proj1 (no_lt_safe s H)). Qed.

Lemma no_lt_count s : has_lt s = false -> html_card_count s = 0.
Proof. intros H; exact (proj2 (no_lt_safe s H)). Qed.

Ltac lt_free :=
  first [ assumption | apply has_lt_str_Z | apply has_lt_str_nat | apply has_lt_strftime
        | rewrite has_lt_py_lower; assumption | rewrite has_lt_py_title; assumption ].

Ltac safe_piece :=
  repeat match goal with
  | |- Forall _ _ => constructor; cbv beta
  | |- tail_safe EmptyString = true => reflexivity
  | |- tail_safe ?k = true => is_const k; vm_compute; reflexivity
  | |- tail_safe (String.concat _ _) = true => apply tail_safe_concat
  | |- tail_safe (_ ++ _) = true => apply tail_safe_app
  | |- tail_safe _ = true => apply no_lt_tail_safe; lt_free
  end.

Ltac count_pieces :=
  repeat match goal with
  | |- context [count_occ_str card_marker ?k] =>
      is_const k; let e := eval vm_compute in (count_occ_str card_marker k) in
      change (count_occ_str card_marker k) with e
  | |- context [count_occ_str card_marker ?k] =>
      change (count_occ_str card_marker k) with (html_card_count k);
      rewrite (no_lt_count k) by lt_free
  end.

Lemma html_vuln_card idx v :
  vuln_row_has_lt v = false ->
  html_card_count (html_vuln idx (vuln_of_row v)) = 1 /\
  tail_safe (html_vuln idx (vuln_of_row v)) = true.
Proof.
  unfold vuln_row_has_lt; intros H.
  repeat (apply orb_false_iff in H as [H ?]).
  unfold html_vuln, html_card_count; cbv zeta; cbn [vuln_of_row v_name v_severity
    v_confidence v_url v_description v_solution v_reference].
  destruct (py_truthy_opt (vr_solution v)), (py_truthy_opt (vr_reference v));
    cbn [String.append];
    rewrite ?count_app by safe_piece; rewrite ?count_concat by safe_piece;
    cbn [map list_sum]; count_pieces; (split; [reflexivity | safe_piece]).
Qed.

Lemma html_vulns_cards l start :
  Forall (fun v => vuln_row_has_lt v = false) l ->
  html_card_count (html_vulns (enumerate start (map vuln_of_row l))) = length l /\
  tail_safe (html_vulns (enumerate start (map vuln_of_row l))) = true.
Proof.
  revert start; induction l as [|v l IH]; intros start H; [split; reflexivity|].
  inversion H as [|? ? Hv Hl]; subst.
  destruct (html_vuln_card start v Hv) as [C T].
  destruct (IH (S start) Hl) as [C' T'].
  cbn [map enumerate html_vulns]; unfold html_card_count in *.
  rewrite count_app by exact T; rewrite C, C'; split; [reflexivity|].
  apply tail_safe_app; assumption.
Qed.

(** The HTML document of a scan holds one card per finding, when no
    text it inserts contains a [<]. *)
Lemma html_document_cards s vrows generated scan_id year :
  scan_has_lt s = false ->
  Forall (fun v => vuln_row_has_lt v = false) vrows ->
  has_lt generated = false ->
  html_card_count ((html_head (data_of_rows s vrows) generated
                    ++ html_vulns (enumerate 1 (d_vulnerabilities (data_of_rows s vrows))))
                   ++ html_footer scan_id year) = length vrows.
Proof.
  unfold scan_has_lt; intros H Hl Hg.
  repeat (apply orb_false_iff in H as [H ?]).
  destruct (html_vulns_cards vrows 1 Hl) as [C T].
  cbn [data_of_rows d_vulnerabilities].
  assert (Th : tail_safe (html_head (data_of_rows s vrows) generated) = true).
  { unfold html_head; cbn [data_of_rows d_target_url d_total_alerts d_high_risk
      d_medium_risk d_low_risk d_scan_type d_start_time d_end_time d_status].
    safe_piece. }
  unfold html_card_count in *.
  rewrite count_app by (apply tail_safe_app; assumption).
  rewrite count_app by exact Th; rewrite C.
  unfold html_head, html_footer; cbn [data_of_rows d_target_url d_total_alerts d_high_risk
      d_medium_risk d_low_risk d_scan_type d_start_time d_end_time d_status].
  rewrite count_concat by safe_piece.
  rewrite !count_app by safe_piece.
  cbn [map list_sum]; count_pieces; cbn [list_sum fold_right]; lia.
Qed.

Lemma pdf_entries_vulns l :
  pdf_entries (pdf_vulns l)
  = map (fun p => "<b>" ++ str_nat (fst p) ++ ". " ++ v_name (snd p) ++ "</b> ["
                  ++ v_severity (snd p) ++ "]") l.
Proof.
  induction l as [|[i v] l IH]; [reflexivity|].
  cbn [pdf_vulns map fst snd]; unfold pdf_entries in *.
  rewrite flat_map_app, IH; unfold pdf_vuln.
  destruct (py_truthy_opt (v_solution v)); reflexivity.
Qed.

Lemma docx_entries_vulns l :
  docx_entries (docx_vulns l) = map (fun p => str_nat (fst p) ++ ". " ++ v_name (snd p)) l.
Proof.
  induction l as [|[i v] l IH]; [reflexivity|].
  cbn [docx_vulns map fst snd]; unfold docx_entries in *.
  rewrite flat_map_app, IH; unfold docx_vuln.
  destruct (py_truthy_opt (v_solution v)); reflexivity.
Qed.

Lemma html_head_stat_blocks d generated :
  exists pre post,
    html_head d generated
    = pre ++ str_Z (d_total_alerts d) ++ html_p_high ++ str_Z (d_high_risk d)
          ++ html_p_medium ++ str_Z (d_medium_risk d) ++ html_p_low
          ++ str_Z (d_low_risk d) ++ post.
Proof.
  exists (html_p_title ++ d_target_url d ++ html_p_style).
  eexists; unfold html_head; cbn [String.concat String.append].
  rewrite !str_app_assoc; reflexivity.
Qed.

(** Every renderer on a store with both tables, an existing scan, every
    encoder available and every path writable: it returns True and
    writes its document for the scan's data, the PDF, DOCX and Excel
    renderers when their library accepts that data. *)
Lemma renderers_on_store (c : caps) (scan_id : Z) (w : world)
  (rows : list scan_row) (vrows : list vuln_row) (s : scan_row)
  (fh fj fc fp fd fx : string) :
  db_scans (w_db w) = Some rows ->
  db_vulnerabilities (w_db w) = Some vrows ->
  scan_lookup scan_id rows = Some s ->
  PDF_AVAILABLE c = true -> DOCX_AVAILABLE c = true -> EXCEL_AVAILABLE c = true ->
  Forall (fun p => existsb (String.eqb p) (w_unwritable w) = false) [fh; fj; fc; fp; fd; fx] ->
  let d := data_of_rows s (findings_of scan_id vrows) in
  (fst (render c FHtml scan_id fh w) = Ok true /\
   file_at fh (w_files (snd (render c FHtml scan_id fh w)))
   = Some (CText ((html_head d (strftime_report (w_clock w (w_tick w)))
                   ++ html_vulns (enumerate 1 (d_vulnerabilities d)))
                  ++ html_footer scan_id (dt_year (w_clock w (S (w_tick w))))))) /\
  (fst (render c FJson scan_id fj w) = Ok true /\
   file_at fj (w_files (snd (render c FJson scan_id fj w))) = Some (CJson (py_of_scan_data d))) /\
  (fst (render c FCsv scan_id fc w) = Ok true /\
   file_at fc (w_files (snd (render c FCsv scan_id fc w))) = Some (CText (csv_text d))) /\
  (encoder_error c FPdf d = None ->
   fst (render c FPdf scan_id fp w) = Ok true /\
   file_at fp (w_files (snd (render c FPdf scan_id fp w))) = Some (CPdf (pdf_story d))) /\
  (encoder_error c FDocx d = None ->
   fst (render c FDocx scan_id fd w) = Ok true /\
   file_at fd (w_files (snd (render c FDocx scan_id fd w))) = Some (CDocx (docx_body d))) /\
  (encoder_error c FExcel d = None ->
   fst (render c FExcel scan_id fx w) = Ok true /\
   file_at fx (w_files (snd (render c FExcel scan_id fx w)))
   = Some (CXlsx [excel_summary d; excel_vulns d])).
Proof.
  intros Hs Hv Hl Hp Hd Hx Hw d; subst d.
  destruct w as [db files unw stdout conns clock tick]; cbn [w_db w_unwritable] in Hs, Hv, Hw.
  rewrite !Forall_cons_iff in Hw; destruct Hw as (Hwh & Hwj & Hwc & Hwp & Hwd & Hwx & _).
  unfold render, generate_html_report, generate_json_report, generate_csv_report,
    generate_pdf_report, generate_docx_report, generate_excel_report, bind, ret, print.
  rewrite Hp, Hd, Hx; cbv [negb]; cbv beta iota.
  rewrite !get_scan_data_eq; cbn [w_db]; rewrite Hs, Hl, Hv; world_steps.
  refine (conj _ (conj _ (conj _ (conj _ (conj _ _))))); try intros He;
    try rewrite (accepts_pdf _ _ He); try rewrite (accepts_docx _ _ He);
    try rewrite (accepts_excel _ _ He); world_steps;
    rewrite ?Hwh, ?Hwj, ?Hwc, ?Hwp, ?Hwd, ?Hwx; cbv iota; cbn [fst snd];
    rewrite !file_at_head_eq; split; reflexivity.
Qed.




(* ================================================================== *)
(** ** C10: stored counts shown as they are *)




(* ================================================================== *)
(** ** The entry point: the menu and the scan identifier *)

Lemma print_lines_eq l w : print_lines l w = (Ok tt, set_stdout w (app (w_stdout w) l)).
Proof.
  revert w; induction l as [|s l IH]; intros w; cbn [print_lines].
  - unfold ret; rewrite app_nil_r; now destruct w.
  - unfold bind at 1, print at 1; rewrite IH; destruct w as [db files unw out conns clock tick]; cbv [set_stdout];
    cbn [w_stdout]; now rewrite <- app_assoc.
Qed.

Lemma main_reaches_dispatch c line1 line2 rest n w :
  py_isdigit (py_strip line1) = true -> py_int (py_strip line1) = Some n ->
  main c (line1 :: line2 :: rest) w
  = match main_dispatch c n (py_strip line2) (set_stdout w (app (w_stdout w) main_preamble)) with
    | (Ok _, w') => (Ok MainDone, set_stdout w' (app (w_stdout w') [completed_msg]))
    | (Raise e, w') => (Raise e, w')
    end.
Proof.
  intros Hd Hi; destruct w as [db files unw out conns clock tick]; unfold main, py_input.
  unfold bind, print, ret; cbv beta iota zeta.
  rewrite Hd; cbv [negb]; rewrite Hi; cbv beta iota.
  rewrite print_lines_eq; cbv beta iota. world_steps.
  rewrite <- !app_assoc.
  destruct (main_dispatch _ _ _ _) as [[u|e] w']; reflexivity.
Qed.

Lemma str_forallb_app f a b :
  str_forallb f (a ++ b) = str_forallb f a && str_forallb f b.
Proof.
  induction a as [|x a IH]; simpl; [reflexivity|]; rewrite IH; apply andb_assoc.
Qed.

Lemma str_forallb_impl (f g : ascii -> bool) s :
  (forall x, f x = true -> g x = true) -> str_forallb f s = true -> str_forallb g s = true.
Proof.
  intros Hfg; induction s as [|x s IH]; simpl; [reflexivity|].
  intros H; apply andb_prop in H as [H1 H2]; rewrite (Hfg x H1); exact (IH H2).
Qed.

Lemma decimal_not_space x : is_decimal x = true -> py_isspace x = false.
Proof.
  unfold is_decimal, py_isspace; intros H; apply andb_prop in H as [H1 H2].
  apply Nat.leb_le in H1; apply Nat.leb_le in H2.
  simpl existsb; repeat (rewrite (proj2 (Nat.eqb_neq _ _)) by lia); reflexivity.
Qed.

Lemma lstrip_blank ws t : py_blank ws = true -> py_lstrip (ws ++ t) = py_lstrip t.
Proof.
  unfold py_blank; induction ws as [|x ws IH]; simpl; intros H; [reflexivity|].
  apply andb_prop in H as [H1 H2]; rewrite H1; exact (IH H2).
Qed.

Lemma lstrip_decimal_app s t :
  s <> "" -> str_forallb is_decimal s = true -> py_lstrip (s ++ t) = s ++ t.
Proof.
  destruct s as [|x s]; [contradiction|]; simpl; intros _ H.
  apply andb_prop in H as [H _]; now rewrite decimal_not_space.
Qed.

Lemma rstrip_blank_only ws : py_blank ws = true -> py_rstrip ws = "".
Proof.
  unfold py_blank; induction ws as [|x ws IH]; simpl; intros H; [reflexivity|].
  apply andb_prop in H as [H1 H2]; rewrite (IH H2), H1; reflexivity.
Qed.

Lemma rstrip_app_blank s ws : py_blank ws = true -> py_rstrip (s ++ ws) = py_rstrip s.
Proof.
  intros H; induction s as [|x s IH]; simpl; [exact (rstrip_blank_only ws H)|].
  rewrite IH; reflexivity.
Qed.

Lemma rstrip_decimal s : str_forallb is_decimal s = true -> py_rstrip s = s.
Proof.
  induction s as [|x s IH]; simpl; intros H; [reflexivity|].
  apply andb_prop in H as [H1 H2]; rewrite (IH H2), (decimal_not_space x H1); reflexivity.
Qed.

Lemma strip_padded ws1 s ws2 :
  py_blank ws1 = true -> py_blank ws2 = true -> s <> "" ->
  str_forallb is_decimal s = true -> py_strip (ws1 ++ s ++ ws2) = s.
Proof.
  intros H1 H2 Hn Hs; unfold py_strip.
  rewrite (lstrip_blank ws1 _ H1), (lstrip_decimal_app s ws2 Hn Hs),
    (rstrip_app_blank s ws2 H2); exact (rstrip_decimal s Hs).
Qed.

Lemma digits_value_none acc s :
  str_forallb is_decimal s = false -> digits_value acc s = None.
Proof.
  revert acc; induction s as [|x s IH]; intros acc; simpl; [discriminate|].
  destruct (is_decimal x); simpl; intros H; [exact (IH _ H) | reflexivity].
Qed.

Lemma digits_value_zeros k t : digits_value 0 (str_repeat k "0" ++ t) = digits_value 0 t.
Proof. induction k as [|k IH]; simpl; [reflexivity | exact IH]. Qed.

Lemma zeros_decimal k : str_forallb is_decimal (str_repeat k "0") = true.
Proof. induction k as [|k IH]; simpl; [reflexivity | exact IH]. Qed.

Lemma digits_value_uint acc d :
  digits_value acc (NilEmpty.string_of_uint d) = Some (uint_value acc d).
Proof.
  revert acc; induction d; intros acc; simpl; try rewrite IHd; try reflexivity;
    f_equal; f_equal; lia.
Qed.

Lemma decimal_uint d : str_forallb is_decimal (NilEmpty.string_of_uint d) = true.
Proof. induction d; simpl; auto. Qed.

Lemma of_uint_acc_value d acc :
  Zpos (Pos.of_uint_acc d acc) = uint_value (Zpos acc) d.
Proof.
  revert acc; induction d; intros acc; cbn [Pos.of_uint_acc uint_value]; try reflexivity;
    rewrite IHd; f_equal; rewrite ?Pos2Z.inj_add, Pos2Z.inj_mul; lia.
Qed.

Lemma of_uint_value d : Z.of_N (Pos.of_uint d) = uint_value 0 d.
Proof.
  induction d; simpl; try exact IHd; try reflexivity; apply of_uint_acc_value.
Qed.

(** [str(z)] of a non-negative [int] is a non-empty run of decimal digits
    whose value is [z]. *)
Lemma str_Z_digits z :
  (0 <= z)%Z ->
  str_Z z <> "" /\ str_forallb is_decimal (str_Z z) = true /\
  digits_value 0 (str_Z z) = Some z.
Proof.
  intros Hz; unfold str_Z; destruct z as [|p|p]; [ | | lia].
  - repeat split; try discriminate; reflexivity.
  - cbn [Z.to_int NilZero.string_of_int].
    pose proof (Unsigned.to_uint_nonnil p) as Hn.
    assert (E : NilZero.string_of_uint (Pos.to_uint p)
                = NilEmpty.string_of_uint (Pos.to_uint p))
      by (destruct (Pos.to_uint p); [contradiction | reflexivity ..]).
    rewrite E; repeat split.
    + destruct (Pos.to_uint p); [contradiction | discriminate ..].
    + apply decimal_uint.
    + rewrite digits_value_uint, <- of_uint_value, Unsigned.of_to; reflexivity.
Qed.

Lemma str_nonempty_app a b : b <> "" -> a ++ b <> "".
Proof. destruct a; simpl; [auto | discriminate]. Qed.

Lemma py_isdigit_decimal s :
  s <> "" -> str_forallb is_decimal s = true -> py_isdigit s = true.
Proof.
  destruct s as [|x s]; [contradiction|]; intros _ H; unfold py_isdigit.
  refine (str_forallb_impl is_decimal _ _ _ H); intros y Hy; now rewrite Hy.
Qed.

Lemma py_int_nonempty s : s <> "" -> py_int s = digits_value 0 s.
Proof. destruct s; [contradiction | reflexivity]. Qed.

(* ================================================================== *)
(** ** What a run may change *)

Lemma frame_refl ok w : frame ok w w.
Proof.
  repeat split; [exists []; now rewrite app_nil_r | exists []; now rewrite app_nil_r |].
  exists []; split; [reflexivity | constructor].
Qed.

Lemma frame_trans ok w1 w2 w3 : frame ok w1 w2 -> frame ok w2 w3 -> frame ok w1 w3.
Proof.
  intros (Hd1 & Hu1 & Hc1 & [o1 Ho1] & [c1 Hcs1] & [f1 [Hf1 Hk1]])
         (Hd2 & Hu2 & Hc2 & [o2 Ho2] & [c2 Hcs2] & [f2 [Hf2 Hk2]]).
  repeat split; try congruence.
  - exists (app o1 o2); rewrite Ho2, Ho1; symmetry; apply app_assoc.
  - exists (app c1 c2); rewrite Hcs2, Hcs1; symmetry; apply app_assoc.
  - exists (app f2 f1); split; [rewrite Hf2, Hf1; apply app_assoc | apply Forall_app; auto].
Qed.

Lemma frame_mono (ok ok' : string -> Prop) w w' :
  (forall p, ok p -> ok' p) -> frame ok w w' -> frame ok' w w'.
Proof.
  intros Himp (Hd & Hu & Hc & Ho & Hcs & [fs [Hf Hk]]); repeat split; auto.
  exists fs; split; [exact Hf | exact (Forall_impl _ (fun x => Himp (fst x)) Hk)].
Qed.

Lemma stays_mono {A} (ok ok' : string -> Prop) (m : M A) :
  (forall p, ok p -> ok' p) -> stays ok m -> stays ok' m.
Proof. intros Himp H w; exact (frame_mono ok ok' _ _ Himp (H w)). Qed.

Lemma stays_bind {A B} ok (m : M A) (k : A -> M B) :
  stays ok m -> (forall a, stays ok (k a)) -> stays ok (bind m k).
Proof.
  intros Hm Hk w; unfold bind; specialize (Hm w).
  destruct (m w) as [[a|e] w1]; cbn [snd] in *; [exact (frame_trans _ _ _ _ Hm (Hk a w1)) | exact Hm].
Qed.

Lemma stays_ret {A} ok (a : A) : stays ok (ret a).
Proof. intros w; apply frame_refl. Qed.

Lemma stays_set_stdout ok w out : frame ok w (set_stdout w (app (w_stdout w) out)).
Proof.
  destruct w; repeat split; [exists out; reflexivity | exists []; now rewrite app_nil_r |].
  exists []; split; [reflexivity | constructor].
Qed.

Lemma stays_set_conns ok w cs : frame ok w (set_conns w (app (w_conns w) cs)).
Proof.
  destruct w; repeat split; [exists []; now rewrite app_nil_r | exists cs; reflexivity |].
  exists []; split; [reflexivity | constructor].
Qed.

Lemma stays_print ok s : stays ok (print s).
Proof. intros w; apply stays_set_stdout. Qed.

Lemma stays_raise {A} ok e : stays ok (@raise A e).
Proof. intros w; apply frame_refl. Qed.

Lemma stays_datetime_now ok : stays ok datetime_now.
Proof.
  intros w; destruct w; repeat split; try (exists []; now rewrite app_nil_r).
  exists []; split; [reflexivity | constructor].
Qed.

Lemma stays_write_file (ok : string -> Prop) p c : ok p -> stays ok (write_file p c).
Proof.
  intros Hp w; unfold write_file; destruct (existsb (String.eqb p) (w_unwritable w)).
  - apply frame_refl.
  - destruct w; repeat split; try (exists []; now rewrite app_nil_r).
    exists [(p, c)]; split; [reflexivity | constructor; [exact Hp | constructor]].
Qed.

Lemma stays_get_scan_data ok scan_id : stays ok (get_scan_data scan_id).
Proof.
  intros w; rewrite get_scan_data_eq.
  destruct (db_scans (w_db w)) as [rows|]; [|apply stays_set_conns].
  destruct (scan_lookup scan_id rows); [|apply stays_set_conns].
  destruct (db_vulnerabilities (w_db w)); apply stays_set_conns.
Qed.

Lemma stays_print_lines ok l : stays ok (print_lines l).
Proof.
  induction l as [|s l IH]; cbn [print_lines]; [apply stays_ret|].
  apply stays_bind; [apply stays_print | intros _; exact IH].
Qed.

Lemma stays_py_input ok prompt stdin : stays ok (py_input prompt stdin).
Proof. apply stays_bind; [apply stays_print | intros _; apply stays_ret]. Qed.

Lemma stays_print_summary ok results : stays ok (print_summary results).
Proof.
  induction results as [|[n b] r IH]; cbn [print_summary]; [apply stays_ret|].
  apply stays_bind; [apply stays_print | intros _; exact IH].
Qed.

Create HintDb frames.
#[local] Hint Resolve stays_ret stays_print stays_raise stays_datetime_now stays_get_scan_data
  stays_print_lines stays_py_input stays_print_summary : frames.

Ltac stays_step :=
  match goal with
  | |- stays _ (bind _ _) => apply stays_bind; [|intros ?; cbv beta]
  | |- stays _ (write_file _ _) => apply stays_write_file; cbv beta; reflexivity
  | |- stays _ (if ?b then _ else _) => destruct b
  | |- stays _ (match ?x with _ => _ end) => destruct x
  | |- stays _ _ => solve [auto with frames]
  end.

Lemma stays_render c f scan_id output_file :
  stays (fun p => p = output_file) (render c f scan_id output_file).
Proof.
  destruct f; cbn [render];
    [ unfold generate_html_report | unfold generate_json_report | unfold generate_csv_report
    | unfold generate_pdf_report | unfold generate_docx_report | unfold generate_excel_report ];
    cbv zeta; repeat stays_step.
Qed.

Lemma stays_run_formats c scan_id fs results :
  stays (fun p => In p (map format_file fs)) (run_formats c scan_id fs results).
Proof.
  revert results; induction fs as [|[[n f] file] fs IH]; intros results; cbn [run_formats].
  - apply stays_ret.
  - apply stays_bind; [apply stays_print | intros _; cbv beta].
    apply stays_bind; [|intros success; cbv beta].
    + refine (stays_mono _ _ _ _ (stays_render c f scan_id file)).
      intros p ->; left; reflexivity.
    + refine (stays_mono _ _ _ _ (IH _)); intros p Hp; right; exact Hp.
Qed.

Lemma stays_generate_all_formats c scan_id base_name :
  stays (fun p => In p (map format_file (formats c base_name)))
    (generate_all_formats c scan_id base_name).
Proof.
  unfold generate_all_formats.
  do 3 (apply stays_bind; [apply stays_print | intros _; cbv beta]).
  apply stays_bind; [apply stays_run_formats | intros results; cbv beta].
  repeat (apply stays_bind; [solve [auto with frames] | intros _; cbv beta]).
  apply stays_ret.
Qed.

Lemma stays_main_dispatch c scan_id choice :
  stays (fun p => In p main_output_files) (main_dispatch c scan_id choice).
Proof.
  unfold main_dispatch;
    repeat match goal with |- stays _ (if String.eqb _ _ then _ else _) => destruct (String.eqb _ _) end;
    try (apply stays_bind; [|intros _; apply stays_ret]);
    try apply stays_print;
    try (refine (stays_mono _ _ _ _ (stays_generate_all_formats c scan_id "security_report"));
         intros p Hp; destruct c as [[] [] [] rb]; simpl in Hp |- *; tauto);
    [ refine (stays_mono _ _ _ _ (stays_render c FHtml scan_id "report.html"))
    | refine (stays_mono _ _ _ _ (stays_render c FPdf scan_id "report.pdf"))
    | refine (stays_mono _ _ _ _ (stays_render c FJson scan_id "report.json"))
    | refine (stays_mono _ _ _ _ (stays_render c FCsv scan_id "report.csv"))
    | refine (stays_mono _ _ _ _ (stays_render c FDocx scan_id "report.docx"))
    | refine (stays_mono _ _ _ _ (stays_render c FExcel scan_id "report.xlsx")) ];
    intros p ->; simpl; tauto.
Qed.

#[local] Hint Resolve stays_main_dispatch : frames.

Lemma stays_main c stdin : stays (fun p => In p main_output_files) (main c stdin).
Proof. unfold main; cbv zeta; repeat stays_step. Qed.

Lemma print_summary_eq results w :
  print_summary results w
  = (Ok tt, set_stdout w (app (w_stdout w) (map summary_line results))).
Proof.
  revert w; induction results as [|[n b] r IH]; intros w; cbn [print_summary map].
  - unfold ret; rewrite app_nil_r; now destruct w.
  - unfold bind at 1, print at 1; rewrite IH; destruct w as [db files unw out conns clock tick];
      cbv [set_stdout]; cbn [w_stdout]; now rewrite <- app_assoc.
Qed.

Lemma render_without_scans c f scan_id output_file w :
  declined_msg c f = None -> db_scans (w_db w) = None ->
  render c f scan_id output_file w
  = (Raise (OperationalError "no such table: scans"), set_conns w (app (w_conns w) [ConnOpen])).
Proof.
  intros Hd Hs.
  destruct f; simpl in Hd;
    [ | | | destruct (PDF_AVAILABLE c) eqn:E | destruct (DOCX_AVAILABLE c) eqn:E
    | destruct (EXCEL_AVAILABLE c) eqn:E ]; try discriminate;
    cbn [render];
    [ unfold generate_html_report | unfold generate_json_report
    | unfold generate_csv_report | unfold generate_pdf_report; rewrite E
    | unfold generate_docx_report; rewrite E | unfold generate_excel_report; rewrite E ];
    cbv [negb]; cbv beta iota; unfold bind at 1; rewrite get_scan_data_eq, Hs; reflexivity.
Qed.

(* ================================================================== *)
(** ** The entry point and the effects of the renderers *)

(** X1. When the stripped first input line is not [str.isdigit()] (empty,
   signed, or with any other character), the script prints the banner, the
   prompt and [[!] Invalid Scan ID], and exits with status 1, touching no
   store, file or connection. *)
Theorem main_rejects_invalid_scan_id (c : caps) (line : string) (rest : list string) (w : world) :
  py_isdigit (py_strip line) = false ->
  main c (line :: rest) w
  = (Ok (MainExit 1),
     set_stdout w (app (w_stdout w) [main_banner; nl ++ "Enter Scan ID: "; "[!] Invalid Scan ID"])).
Proof.
  intros Hd; destruct w as [db files unw out conns clock tick].
  unfold main, py_input, bind, print, ret; cbv beta iota zeta.
  rewrite Hd; cbv [negb]; cbv beta iota; world_steps.
  rewrite <- !app_assoc; reflexivity.
Qed.

Lemma main_rejects_invalid_scan_id_witness :
  py_isdigit (py_strip " -7 ") = false /\
  main (mk_caps true true true reportlab_builds_all) [" -7 "; "1"] (world_of store_42)
  = (Ok (MainExit 1),
     set_stdout (world_of store_42)
       (app (w_stdout (world_of store_42))
          [main_banner; nl ++ "Enter Scan ID: "; "[!] Invalid Scan ID"])).
Proof.
  split; [reflexivity|].
  apply (main_rejects_invalid_scan_id (mk_caps true true true reportlab_builds_all) " -7 " ["1"] (world_of store_42)).
  reflexivity.
Defined.

(** X2. When the stripped first input line passes [str.isdigit()] but
   contains a superscript digit (two, three or one), [int()] raises
   [ValueError] right after the prompt: no menu is printed and no store,
   file or connection is touched. *)
Theorem main_superscript_id_value_error (c : caps) (line : string) (rest : list string) (w : world) :
  py_isdigit (py_strip line) = true -> str_forallb is_decimal (py_strip line) = false ->
  main c (line :: rest) w
  = (Ok MainValueError,
     set_stdout w (app (w_stdout w) [main_banner; nl ++ "Enter Scan ID: "])).
Proof.
  intros Hd Hn.
  assert (Hi : py_int (py_strip line) = None).
  { destruct (py_strip line) as [|x s] eqn:E; [reflexivity|].
    rewrite py_int_nonempty by discriminate; exact (digits_value_none 0 _ Hn). }
  destruct w as [db files unw out conns clock tick].
  unfold main, py_input, bind, print, ret; cbv beta iota zeta.
  rewrite Hd; cbv [negb]; rewrite Hi; cbv beta iota; world_steps.
  rewrite <- !app_assoc; reflexivity.
Qed.

Lemma main_superscript_id_value_error_witness :
  py_isdigit (py_strip ("4" ++ String "178" "")) = true /\
  str_forallb is_decimal (py_strip ("4" ++ String "178" "")) = false /\
  main (mk_caps true true true reportlab_builds_all) ["4" ++ String "178" ""; "1"] (world_of store_42)
  = (Ok MainValueError,
     set_stdout (world_of store_42)
       (app (w_stdout (world_of store_42)) [main_banner; nl ++ "Enter Scan ID: "])).
Proof.
  split; [reflexivity|]; split; [reflexivity|].
  apply (main_superscript_id_value_error (mk_caps true true true reportlab_builds_all) ("4" ++ String "178" "") ["1"]
           (world_of store_42)); reflexivity.
Defined.

(** X3. A first input line made of a non-negative number in decimal,
   possibly with leading zeros and surrounded by whitespace, is accepted
   and read as that number: the script prints the menu and the choice
   prompt, dispatches on the stripped second line with that scan
   identifier and, when the dispatch returns, prints the completion
   line of line 957. *)
Theorem main_reads_scan_id (c : caps) (z : Z) (k : nat) (ws1 ws2 line2 : string)
  (rest : list string) (w : world) :
  (0 <= z)%Z -> py_blank ws1 = true -> py_blank ws2 = true ->
  main c ((ws1 ++ str_repeat k "0" ++ str_Z z ++ ws2) :: line2 :: rest) w
  = match main_dispatch c z (py_strip line2) (set_stdout w (app (w_stdout w) main_preamble)) with
    | (Ok _, w') => (Ok MainDone, set_stdout w' (app (w_stdout w') [completed_msg]))
    | (Raise e, w') => (Raise e, w')
    end.
Proof.
  intros Hz H1 H2; destruct (str_Z_digits z Hz) as (Hn & Hd & Hv).
  assert (Hne : str_repeat k "0" ++ str_Z z <> "") by exact (str_nonempty_app _ _ Hn).
  assert (Hdd : str_forallb is_decimal (str_repeat k "0" ++ str_Z z) = true)
    by (rewrite str_forallb_app, zeros_decimal, Hd; reflexivity).
  pose proof (strip_padded ws1 _ ws2 H1 H2 Hne Hdd) as Hs.
  rewrite str_app_assoc in Hs.
  apply main_reaches_dispatch; rewrite Hs.
  - exact (py_isdigit_decimal _ Hne Hdd).
  - rewrite (py_int_nonempty _ Hne), digits_value_zeros; exact Hv.
Qed.

Lemma main_reads_scan_id_witness :
  (0 <= 42)%Z /\ py_blank " " = true /\ py_blank (String "009" "") = true /\
  main (mk_caps true true true reportlab_builds_all)
    ((" " ++ str_repeat 2 "0" ++ str_Z 42 ++ String "009" "") :: "3" :: []) (world_of store_42)
  = match main_dispatch (mk_caps true true true reportlab_builds_all) 42 (py_strip "3")
            (set_stdout (world_of store_42) (app (w_stdout (world_of store_42)) main_preamble)) with
    | (Ok _, w') => (Ok MainDone, set_stdout w' (app (w_stdout w') [completed_msg]))
    | (Raise e, w') => (Raise e, w')
    end.
Proof.
  split; [lia|]; split; [reflexivity|]; split; [reflexivity|].
  apply (main_reads_scan_id (mk_caps true true true reportlab_builds_all) 42 2 " " (String "009" "") "3" []
           (world_of store_42)); [lia | reflexivity | reflexivity].
Defined.

Ltac finish_dispatch :=
  lazymatch goal with
  | |- _ = match ?r with _ => _ end => destruct r as [[u|e] w']; reflexivity
  end.

Ltac eval_choice :=
  repeat match goal with
         | |- context [String.eqb ?a ?b] =>
             let v := eval vm_compute in (String.eqb a b) in
             change (String.eqb a b) with v; cbv beta iota
         end.

(** X4. With a valid scan identifier, the choices 1 to 6 run exactly the
   corresponding renderer on its default file (report.html, report.pdf,
   report.json, report.csv, report.docx, report.xlsx) after the menu;
   whatever the renderer returns, the script then prints the completion
   line and ends normally, and an exception of the renderer propagates
   without that line. *)
Theorem main_runs_chosen_renderer (c : caps) (line1 line2 : string) (rest : list string)
  (n : Z) (k : string) (f : fmt) (file : string) (w : world) :
  py_isdigit (py_strip line1) = true -> py_int (py_strip line1) = Some n ->
  In (k, f, file) main_renderer_choices -> py_strip line2 = k ->
  main c (line1 :: line2 :: rest) w
  = match render c f n file (set_stdout w (app (w_stdout w) main_preamble)) with
    | (Ok _, w') => (Ok MainDone, set_stdout w' (app (w_stdout w') [completed_msg]))
    | (Raise e, w') => (Raise e, w')
    end.
Proof.
  intros Hd Hi Hin Hk; rewrite (main_reaches_dispatch c line1 line2 rest n w Hd Hi), Hk.
  simpl in Hin; destruct Hin as [E|[E|[E|[E|[E|[E|[]]]]]]]; injection E as <- <- <-;
    unfold main_dispatch; eval_choice; unfold bind, ret; cbn [render];
    finish_dispatch.
Qed.

Lemma main_runs_chosen_renderer_witness :
  py_isdigit (py_strip "42") = true /\ py_int (py_strip "42") = Some 42%Z /\
  In ("3", FJson, "report.json") main_renderer_choices /\ py_strip " 3 " = "3" /\
  main (mk_caps true true true reportlab_builds_all) ["42"; " 3 "] (world_of store_42)
  = match render (mk_caps true true true reportlab_builds_all) FJson 42 "report.json"
            (set_stdout (world_of store_42) (app (w_stdout (world_of store_42)) main_preamble)) with
    | (Ok _, w') => (Ok MainDone, set_stdout w' (app (w_stdout w') [completed_msg]))
    | (Raise e, w') => (Raise e, w')
    end.
Proof.
  split; [reflexivity|]; split; [reflexivity|]; split; [simpl; tauto|]; split; [reflexivity|].
  apply (main_runs_chosen_renderer (mk_caps true true true reportlab_builds_all) "42" " 3 " [] 42 "3" FJson
           "report.json" (world_of store_42)); [reflexivity | reflexivity | simpl; tauto | reflexivity].
Defined.

(** X5. With a valid scan identifier, the choice 7 runs
   [generate_all_formats] with base name security_report after the menu;
   the script then prints the completion line and ends normally, and an
   exception propagates without that line. *)
Theorem main_runs_all_formats (c : caps) (line1 line2 : string) (rest : list string)
  (n : Z) (w : world) :
  py_isdigit (py_strip line1) = true -> py_int (py_strip line1) = Some n ->
  py_strip line2 = "7" ->
  main c (line1 :: line2 :: rest) w
  = match generate_all_formats c n "security_report"
            (set_stdout w (app (w_stdout w) main_preamble)) with
    | (Ok _, w') => (Ok MainDone, set_stdout w' (app (w_stdout w') [completed_msg]))
    | (Raise e, w') => (Raise e, w')
    end.
Proof.
  intros Hd Hi Hk; rewrite (main_reaches_dispatch c line1 line2 rest n w Hd Hi), Hk.
  unfold main_dispatch; eval_choice; unfold bind, ret; finish_dispatch.
Qed.

Lemma main_runs_all_formats_witness :
  py_isdigit (py_strip "42") = true /\ py_int (py_strip "42") = Some 42%Z /\
  py_strip "7" = "7" /\
  main (mk_caps true true true reportlab_builds_all) ["42"; "7"] (world_of store_42)
  = match generate_all_formats (mk_caps true true true reportlab_builds_all) 42 "security_report"
            (set_stdout (world_of store_42) (app (w_stdout (world_of store_42)) main_preamble)) with
    | (Ok _, w') => (Ok MainDone, set_stdout w' (app (w_stdout w') [completed_msg]))
    | (Raise e, w') => (Raise e, w')
    end.
Proof.
  split; [reflexivity|]; split; [reflexivity|]; split; [reflexivity|].
  apply (main_runs_all_formats (mk_caps true true true reportlab_builds_all) "42" "7" [] 42 (world_of store_42));
    reflexivity.
Defined.

(** X6. With a valid scan identifier, any stripped choice other than 1 to
   7 prints [[!] Invalid choice] after the menu, then the completion
   line, and ends normally, touching no store, file or connection. *)
Theorem main_rejects_invalid_choice (c : caps) (line1 line2 : string) (rest : list string)
  (n : Z) (w : world) :
  py_isdigit (py_strip line1) = true -> py_int (py_strip line1) = Some n ->
  ~ In (py_strip line2) ["1"; "2"; "3"; "4"; "5"; "6"; "7"] ->
  main c (line1 :: line2 :: rest) w
  = (Ok MainDone,
     set_stdout w (app (w_stdout w) (app main_preamble ["[!] Invalid choice"; completed_msg]))).
Proof.
  intros Hd Hi Hn; rewrite (main_reaches_dispatch c line1 line2 rest n w Hd Hi).
  unfold main_dispatch.
  repeat match goal with
         | |- context [String.eqb (py_strip line2) ?k] =>
             destruct (String.eqb_spec (py_strip line2) k) as [E|_];
             [exfalso; apply Hn; rewrite E; simpl; tauto|]
         end.
  destruct w as [db files unw out conns clock tick].
  unfold print; world_steps; rewrite <- !app_assoc; reflexivity.
Qed.

Lemma main_rejects_invalid_choice_witness :
  py_isdigit (py_strip "42") = true /\ py_int (py_strip "42") = Some 42%Z /\
  ~ In (py_strip "01") ["1"; "2"; "3"; "4"; "5"; "6"; "7"] /\
  main (mk_caps true true true reportlab_builds_all) ["42"; "01"] (world_of store_42)
  = (Ok MainDone, set_stdout (world_of store_42)
       (app (w_stdout (world_of store_42))
          (app main_preamble ["[!] Invalid choice"; completed_msg]))).
Proof.
  assert (Hn : ~ In (py_strip "01") ["1"; "2"; "3"; "4"; "5"; "6"; "7"]).
  { simpl; intros H; repeat destruct H as [H|H]; try discriminate H; exact H. }
  split; [reflexivity|]; split; [reflexivity|]; split; [exact Hn|].
  apply (main_rejects_invalid_choice (mk_caps true true true reportlab_builds_all) "42" "01" [] 42 (world_of store_42));
    [reflexivity | reflexivity | exact Hn].
Defined.

(** X7. When standard input ends before the scan identifier, or before the
   choice after a valid identifier, the script stops with [EOFError] after
   the corresponding prompt, touching no store, file or connection. *)
Theorem main_eof_before_answers (c : caps) (line1 : string) (n : Z) (w : world) :
  main c [] w
  = (Ok MainEOFError, set_stdout w (app (w_stdout w) [main_banner; nl ++ "Enter Scan ID: "])) /\
  (py_isdigit (py_strip line1) = true -> py_int (py_strip line1) = Some n ->
   main c [line1] w = (Ok MainEOFError, set_stdout w (app (w_stdout w) main_preamble))).
Proof.
  destruct w as [db files unw out conns clock tick]; split.
  - unfold main, py_input, bind, print, ret; cbv beta iota; world_steps.
    rewrite <- !app_assoc; reflexivity.
  - intros Hd Hi; unfold main, py_input, bind, print, ret; cbv beta iota zeta.
    rewrite Hd; cbv [negb]; rewrite Hi; cbv beta iota.
    rewrite print_lines_eq; cbv beta iota; world_steps.
    rewrite <- !app_assoc; reflexivity.
Qed.

Lemma main_eof_before_answers_witness :
  main (mk_caps true true true reportlab_builds_all) [] (world_of store_42)
  = (Ok MainEOFError, set_stdout (world_of store_42)
       (app (w_stdout (world_of store_42)) [main_banner; nl ++ "Enter Scan ID: "])) /\
  (py_isdigit (py_strip "42") = true /\ py_int (py_strip "42") = Some 42%Z /\
   main (mk_caps true true true reportlab_builds_all) ["42"] (world_of store_42)
   = (Ok MainEOFError, set_stdout (world_of store_42)
        (app (w_stdout (world_of store_42)) main_preamble))).
Proof.
  destruct (main_eof_before_answers (mk_caps true true true reportlab_builds_all) "42" 42 (world_of store_42))
    as [H1 H2].
  split; [exact H1|]; split; [reflexivity|]; split; [reflexivity|].
  apply H2; reflexivity.
Defined.

(** X8. On a store without a [scans] table, every renderer whose encoder
   is present raises [OperationalError] (no such table: scans); it writes
   no file, prints nothing and leaves the connection it opened unclosed. *)
Theorem renderers_raise_without_scans_table (c : caps) (f : fmt) (scan_id : Z)
  (output_file : string) (w : world) :
  declined_msg c f = None -> db_scans (w_db w) = None ->
  render c f scan_id output_file w
  = (Raise (OperationalError "no such table: scans"), set_conns w (app (w_conns w) [ConnOpen])).
Proof. exact (render_without_scans c f scan_id output_file w). Qed.

Lemma renderers_raise_without_scans_table_witness :
  declined_msg (mk_caps true true true reportlab_builds_all) FCsv = None /\
  db_scans (w_db (world_of (mk_database None (Some findings_42)))) = None /\
  render (mk_caps true true true reportlab_builds_all) FCsv 42 "report.csv" (world_of (mk_database None (Some findings_42)))
  = (Raise (OperationalError "no such table: scans"),
     set_conns (world_of (mk_database None (Some findings_42)))
       (app (w_conns (world_of (mk_database None (Some findings_42)))) [ConnOpen])).
Proof.
  split; [reflexivity|]; split; [reflexivity|].
  apply (renderers_raise_without_scans_table (mk_caps true true true reportlab_builds_all) FCsv 42 "report.csv"
           (world_of (mk_database None (Some findings_42)))); reflexivity.
Defined.

(** X9. On a store without a [scans] table, [generate_all_formats] prints
   its header and the line announcing the HTML report, then raises
   [OperationalError] from the HTML renderer: no file is written, no
   summary is printed and the connection opened is left unclosed. *)
Theorem all_formats_abort_without_scans_table (c : caps) (scan_id : Z) (base_name : string)
  (w : world) :
  db_scans (w_db w) = None ->
  generate_all_formats c scan_id base_name w
  = (Raise (OperationalError "no such table: scans"),
     set_conns
       (set_stdout w (app (w_stdout w)
          [nl ++ str_repeat 60 "="; "GENERATING REPORTS IN ALL FORMATS"; str_repeat 60 "=";
           nl ++ "[*] Generating HTML report..."]))
       (app (w_conns w) [ConnOpen])).
Proof.
  intros Hs; destruct w as [db files unw out conns clock tick]; cbn [w_db] in Hs.
  unfold generate_all_formats, formats; cbn [app run_formats].
  unfold bind at 1 2 3 4, print at 1 2 3; cbv beta iota.
  unfold bind at 1, print at 1; cbv beta iota.
  unfold bind at 1; world_steps.
  rewrite (render_without_scans c FHtml scan_id (base_name ++ ".html")) by exact Hs || reflexivity.
  cbv beta iota; world_steps; rewrite <- !app_assoc; reflexivity.
Qed.

Lemma all_formats_abort_without_scans_table_witness :
  db_scans (w_db (world_of (mk_database None None))) = None /\
  generate_all_formats (mk_caps true false true reportlab_builds_all) 42 "out" (world_of (mk_database None None))
  = (Raise (OperationalError "no such table: scans"),
     set_conns
       (set_stdout (world_of (mk_database None None))
          (app (w_stdout (world_of (mk_database None None)))
          [nl ++ str_repeat 60 "="; "GENERATING REPORTS IN ALL FORMATS"; str_repeat 60 "=";
           nl ++ "[*] Generating HTML report..."]))
       (app (w_conns (world_of (mk_database None None))) [ConnOpen])).
Proof.
  split; [reflexivity|].
  apply (all_formats_abort_without_scans_table (mk_caps true false true reportlab_builds_all) 42 "out"
           (world_of (mk_database None None))); reflexivity.
Defined.

(** X10. For an existing scan, a renderer whose encoder is present and
   whose output path cannot be written raises: the exception of
   ReportLab, lxml or openpyxl when that library rejects the scan's data,
   else [OSError] on that path.  No file is added, no success message is
   printed, and the connection was opened and closed before. *)
Theorem renderers_raise_on_unwritable_path (c : caps) (f : fmt) (scan_id : Z)
  (output_file : string) (w : world) (rows : list scan_row) (s : scan_row)
  (vrows : list vuln_row) :
  declined_msg c f = None ->
  db_scans (w_db w) = Some rows -> scan_lookup scan_id rows = Some s ->
  db_vulnerabilities (w_db w) = Some vrows ->
  In output_file (w_unwritable w) ->
  fst (render c f scan_id output_file w)
  = Raise (match encoder_error c f (data_of_rows s (findings_of scan_id vrows)) with
           | Some e => e
           | None => OSError output_file
           end) /\
  w_files (snd (render c f scan_id output_file w)) = w_files w /\
  w_stdout (snd (render c f scan_id output_file w)) = w_stdout w /\
  w_conns (snd (render c f scan_id output_file w)) = app (w_conns w) [ConnOpen; ConnClose].
Proof.
  intros Hd Hs Hl Hv Hu.
  assert (Hw : existsb (String.eqb output_file) (w_unwritable w) = true)
    by (apply existsb_exists; exists output_file; split; [exact Hu | apply String.eqb_refl]).
  destruct w as [db files unw out conns clock tick]; cbn [w_db w_unwritable] in Hs, Hv, Hw.
  destruct f; simpl in Hd;
    [ | | | destruct (PDF_AVAILABLE c) eqn:E | destruct (DOCX_AVAILABLE c) eqn:E
    | destruct (EXCEL_AVAILABLE c) eqn:E ]; try discriminate;
    cbn [render];
    [ unfold generate_html_report | unfold generate_json_report
    | unfold generate_csv_report | unfold generate_pdf_report; rewrite E
    | unfold generate_docx_report; rewrite E | unfold generate_excel_report; rewrite E ];
    cbv [negb]; cbv beta iota; unfold bind, ret, print;
    rewrite get_scan_data_eq; cbn [w_db]; rewrite Hs, Hl, Hv; world_steps;
    cbn [encoder_error option_map]; encoder_cases; unfold raise; world_steps;
    rewrite ?Hw; repeat split.
Qed.

Lemma renderers_raise_on_unwritable_path_witness :
  declined_msg (mk_caps true true true reportlab_builds_all) FPdf = None /\
  db_scans (w_db (mk_world store_42 [] ["report.pdf"] [] [] demo_clock 0)) = Some [scan_42] /\
  scan_lookup 42 [scan_42] = Some scan_42 /\
  db_vulnerabilities (w_db (mk_world store_42 [] ["report.pdf"] [] [] demo_clock 0))
    = Some findings_42 /\
  In "report.pdf" (w_unwritable (mk_world store_42 [] ["report.pdf"] [] [] demo_clock 0)) /\
  fst (render (mk_caps true true true reportlab_builds_all) FPdf 42 "report.pdf"
         (mk_world store_42 [] ["report.pdf"] [] [] demo_clock 0)) = Raise (OSError "report.pdf").
Proof.
  do 4 (split; [reflexivity|]); split; [simpl; tauto|].
  destruct (renderers_raise_on_unwritable_path (mk_caps true true true reportlab_builds_all) FPdf 42
              "report.pdf" (mk_world store_42 [] ["report.pdf"] [] [] demo_clock 0)
              [scan_42] scan_42 findings_42 eq_refl eq_refl eq_refl eq_refl
              ltac:(simpl; tauto)) as [H _].
  rewrite H; reflexivity.
Defined.

(** X11. When [generate_all_formats] returns a mapping, its output ends
   with the summary block: a rule, REPORT GENERATION SUMMARY, a rule, one
   line per returned entry in order (the name padded to 12 columns, a
   colon and the status), and a closing rule. *)
Theorem all_formats_summary_printed (c : caps) (scan_id : Z) (base_name : string)
  (w w' : world) (results : list (string * bool)) :
  generate_all_formats c scan_id base_name w = (Ok results, w') ->
  exists pre, w_stdout w' =
    app (w_stdout w)
      (app pre
         (app [nl ++ str_repeat 60 "="; "REPORT GENERATION SUMMARY"; str_repeat 60 "="]
            (app (map summary_line results) [str_repeat 60 "=" ++ nl]))).
Proof.
  unfold generate_all_formats.
  unfold bind at 1 2 3 4, print at 1 2 3; cbv beta iota.
  set (w0 := set_stdout _ _).
  pose proof (stays_run_formats c scan_id (formats c base_name) [] w0) as Hf.
  destruct (run_formats c scan_id (formats c base_name) [] w0) as [[r|e] w1] eqn:Er;
    [|discriminate].
  cbn [snd] in Hf; destruct Hf as (_ & _ & _ & [o Ho] & _).
  unfold bind, print; cbv beta iota.
  rewrite print_summary_eq; cbv beta iota; unfold ret; intros H; injection H as <- <-.
  exists (app [nl ++ str_repeat 60 "="; "GENERATING REPORTS IN ALL FORMATS"; str_repeat 60 "="] o).
  destruct w1 as [db files unw out conns clock tick]; cbn [w_stdout] in Ho; world_steps.
  rewrite Ho; subst w0; destruct w; world_steps.
  rewrite <- !app_assoc; reflexivity.
Qed.

Lemma all_formats_summary_printed_witness :
  exists w', generate_all_formats (mk_caps false false false reportlab_builds_all) 42 "out" (world_of store_42)
             = (Ok [("HTML", true); ("JSON", true); ("CSV", true)], w') /\
  exists pre, w_stdout w' =
    app (w_stdout (world_of store_42))
      (app pre
         (app [nl ++ str_repeat 60 "="; "REPORT GENERATION SUMMARY"; str_repeat 60 "="]
            (app (map summary_line [("HTML", true); ("JSON", true); ("CSV", true)])
               [str_repeat 60 "=" ++ nl]))).
Proof.
  destruct (generate_all_formats (mk_caps false false false reportlab_builds_all) 42 "out" (world_of store_42))
    as [o w'] eqn:E.
  assert (Ho : o = Ok [("HTML", true); ("JSON", true); ("CSV", true)]).
  { change o with (fst (o, w')); rewrite <- E; vm_compute; reflexivity. }
  subst o; exists w'; split; [reflexivity|].
  exact (all_formats_summary_printed (mk_caps false false false reportlab_builds_all) 42 "out" (world_of store_42)
           w' _ E).
Defined.

(** X12. Whatever its outcome, a renderer leaves the store, the unwritable
   paths and the clock unchanged, only appends to the output and to the
   connection events, and only adds files on top of the existing ones, all
   at its [output_file]. *)
Theorem renderer_only_adds_output_file (c : caps) (f : fmt) (scan_id : Z)
  (output_file : string) (w : world) :
  frame (fun p => p = output_file) w (snd (render c f scan_id output_file w)).
Proof. exact (stays_render c f scan_id output_file w). Qed.

(** X13. Whatever its outcome, [generate_all_formats] leaves the store,
   the unwritable paths and the clock unchanged, only appends to the
   output and to the connection events, and only adds files at the paths
   of the formats it runs. *)
Theorem all_formats_only_adds_format_files (c : caps) (scan_id : Z) (base_name : string)
  (w : world) :
  frame (fun p => In p (map format_file (formats c base_name))) w
    (snd (generate_all_formats c scan_id base_name w)).
Proof. exact (stays_generate_all_formats c scan_id base_name w). Qed.

(** X14. Whatever the input lines and the outcome, the script leaves the
   store, the unwritable paths and the clock unchanged, only appends to
   the output and to the connection events, and only adds files among its
   twelve default paths ([main_output_files]). *)
Theorem main_only_adds_default_files (c : caps) (stdin : list string) (w : world) :
  frame (fun p => In p main_output_files) w (snd (main c stdin w)).
Proof. exact (stays_main c stdin w). Qed.

(** X15. A renderer either leaves the files unchanged or adds exactly one
   file, at its [output_file], on top of the existing ones. *)
Theorem renderer_writes_at_most_once (c : caps) (f : fmt) (scan_id : Z)
  (output_file : string) (w : world) :
  w_files (snd (render c f scan_id output_file w)) = w_files w \/
  exists ct, w_files (snd (render c f scan_id output_file w)) = (output_file, ct) :: w_files w.
Proof.
  destruct w as [db files unw out conns clock tick].
  destruct f; cbn [render];
    [ unfold generate_html_report | unfold generate_json_report | unfold generate_csv_report
    | unfold generate_pdf_report; destruct (PDF_AVAILABLE c)
    | unfold generate_docx_report; destruct (DOCX_AVAILABLE c)
    | unfold generate_excel_report; destruct (EXCEL_AVAILABLE c) ];
    cbv [negb]; cbv beta iota; unfold bind, ret, print; cbv beta iota;
    try (left; reflexivity);
    rewrite get_scan_data_eq; cbn [w_db];
    destruct (db_scans db) as [rows|]; try (left; reflexivity);
    destruct (scan_lookup scan_id rows); try (left; reflexivity);
    destruct (db_vulnerabilities db); try (left; reflexivity);
    world_steps; encoder_cases; unfold raise; try (left; reflexivity);
    world_steps; destruct (existsb (String.eqb output_file) unw); cbn [snd w_files];
    solve [left; reflexivity | right; eexists; reflexivity].
Qed.
